(** * golang-mvp-otel: the CEP -> weather pipeline

    A shallow embedding of the two services of the repository:
    - service A (the Gateway, [service-a/main.go]) validates a CEP and
      forwards it to service B;
    - service B (the Resolver) looks the CEP up at ViaCEP, asks WeatherAPI
      for the temperature of the city and converts it.

    Go strings are byte sequences, modelled by [string] (a list of [ascii]
    bytes); [float64] is the kernel's binary64 [float]; HTTP status codes
    are [Z]; the process environment is a [gmap string string]. *)

From Stdlib Require Import ZArith String Ascii List Bool Lia ZifyBool.
From Stdlib Require Import Floats.PrimFloat.
From stdpp Require Import base option gmap strings pretty.

Import ListNotations.
Local Open Scope Z_scope.

Set Warnings "-inexact-float".

(** ** Bytes and runes *)

Definition byteZ (c : ascii) : Z := Z.of_N (N_of_ascii c).

(** Go's [s[n:]] for [n <= len(s)]. *)
Fixpoint dropBytes (n : nat) (s : string) : string :=
  match n, s with
  | O, _ => s
  | S k, String _ s' => dropBytes k s'
  | S _, EmptyString => EmptyString
  end.

(** ** unicode/utf8: [DecodeRuneInString] *)
Module utf8.

Definition RuneError : Z := 0xFFFD.
Definition RuneSelf : Z := 0x80.

Definition maskx : Z := 0x3F.
Definition mask2 : Z := 0x1F.
Definition mask3 : Z := 0x0F.
Definition mask4 : Z := 0x07.

Definition locb : Z := 0x80.
Definition hicb : Z := 0xBF.

(** The size/accept-range information of the table [first]. *)
Definition xx : Z := 0xF1.
Definition as_ : Z := 0xF0.
Definition s1 : Z := 0x02.
Definition s2 : Z := 0x13.
Definition s3 : Z := 0x03.
Definition s4 : Z := 0x23.
Definition s5 : Z := 0x34.
Definition s6 : Z := 0x04.
Definition s7 : Z := 0x44.

Definition first (b : Z) : Z :=
  if b <? 0x80 then as_
  else if b <? 0xC2 then xx
  else if b <? 0xE0 then s1
  else if b =? 0xE0 then s2
  else if b <? 0xED then s3
  else if b =? 0xED then s4
  else if b <? 0xF0 then s3
  else if b =? 0xF0 then s5
  else if b <? 0xF4 then s6
  else if b =? 0xF4 then s7
  else xx.

(** [acceptRanges]: the bounds of the second byte. *)
Definition acceptRanges (i : Z) : Z * Z :=
  if i =? 0 then (locb, hicb)
  else if i =? 1 then (0xA0, hicb)
  else if i =? 2 then (locb, 0x9F)
  else if i =? 3 then (0x90, hicb)
  else if i =? 4 then (locb, 0x8F)
  else (0, 0).

(** The rune at the head of [s] and its width in bytes. *)
Definition DecodeRuneInString (s : string) : Z * nat :=
  match s with
  | EmptyString => (RuneError, 0%nat)
  | String c0 t0 =>
      let b0 := byteZ c0 in
      let x := first b0 in
      if as_ <=? x then
        (if x =? as_ then b0 else RuneError, 1%nat)
      else
        let sz := Z.to_nat (Z.land x 7) in
        let '(lo, hi) := acceptRanges (Z.shiftr x 4) in
        if (String.length s <? sz)%nat then (RuneError, 1%nat)
        else
          match t0 with
          | EmptyString => (RuneError, 1%nat)
          | String c1 t1 =>
              let b1 := byteZ c1 in
              if (b1 <? lo) || (hi <? b1) then (RuneError, 1%nat)
              else if (sz <=? 2)%nat then
                (Z.lor (Z.shiftl (Z.land b0 mask2) 6) (Z.land b1 maskx), 2%nat)
              else
                match t1 with
                | EmptyString => (RuneError, 1%nat)
                | String c2 t2 =>
                    let b2 := byteZ c2 in
                    if (b2 <? locb) || (hicb <? b2) then (RuneError, 1%nat)
                    else if (sz <=? 3)%nat then
                      (Z.lor (Z.lor (Z.shiftl (Z.land b0 mask3) 12)
                                    (Z.shiftl (Z.land b1 maskx) 6))
                             (Z.land b2 maskx), 3%nat)
                    else
                      match t2 with
                      | EmptyString => (RuneError, 1%nat)
                      | String c3 _ =>
                          let b3 := byteZ c3 in
                          if (b3 <? locb) || (hicb <? b3) then (RuneError, 1%nat)
                          else
                            (Z.lor (Z.lor (Z.lor (Z.shiftl (Z.land b0 mask4) 18)
                                                 (Z.shiftl (Z.land b1 maskx) 12))
                                          (Z.shiftl (Z.land b2 maskx) 6))
                                   (Z.land b3 maskx), 4%nat)
                      end
                end
          end
  end.

End utf8.

(** ** regexp: the fragment used by the pattern [^\d{8}$] *)
Module regexp.

(** Syntax trees as [regexp/syntax] parses them (Perl flags, no [m] flag:
    [^] is the beginning of the text and [$] its very end). *)
Inductive Regexp : Type :=
| OpEmptyMatch
| OpBeginText
| OpEndText
| OpCharClass (lo hi : Z)
| OpConcat (r1 r2 : Regexp)
| OpRepeat (n : nat) (r : Regexp).

(** A position of the matcher: the byte offset and the rest of the text. *)
Definition Pos : Type := nat * string.

(** [inputString.step]: the rune at a position and its width. *)
Definition step (rest : string) : Z * nat :=
  match rest with
  | EmptyString => (-1, 0%nat)
  | String c _ =>
      if byteZ c <? utf8.RuneSelf then (byteZ c, 1%nat)
      else utf8.DecodeRuneInString rest
  end.

Fixpoint iterate {A : Type} (n : nat) (f : A -> A) (a : A) : A :=
  match n with
  | O => a
  | S k => iterate k f (f a)
  end.

(** All positions at which a match of [r] started at [p] can end. *)
Fixpoint matchAt (r : Regexp) (p : Pos) : list Pos :=
  match r with
  | OpEmptyMatch => [p]
  | OpBeginText => if (fst p =? 0)%nat then [p] else []
  | OpEndText => match snd p with EmptyString => [p] | _ => [] end
  | OpCharClass lo hi =>
      let '(c, w) := step (snd p) in
      if (lo <=? c) && (c <=? hi) then [((fst p + w)%nat, dropBytes w (snd p))]
      else []
  | OpConcat r1 r2 => flat_map (matchAt r2) (matchAt r1 p)
  | OpRepeat n r' => iterate n (flat_map (matchAt r')) [p]
  end.

Definition nonEmpty {A : Type} (l : list A) : bool :=
  match l with [] => false | _ => true end.

(** The unanchored search of [MatchString]: a match may start at every
    rune boundary of the text ([skip] counts the bytes left in the rune
    being stepped over). *)
Fixpoint search (r : Regexp) (pos skip : nat) (rest : string) : bool :=
  match skip with
  | S k =>
      match rest with
      | EmptyString => false
      | String _ rest' => search r (S pos) k rest'
      end
  | O =>
      nonEmpty (matchAt r (pos, rest)) ||
      match rest with
      | EmptyString => false
      | String _ rest' => search r (S pos) (Nat.pred (snd (step rest))) rest'
      end
  end.

Definition MatchString (r : Regexp) (s : string) : bool := search r 0 0 s.

(** [\d] is the ASCII class [0-9]. *)
Definition perlDigit : Regexp := OpCharClass 48 57.

(** The parse of [^\d{8}$]. *)
Definition cepPattern : Regexp :=
  OpConcat OpBeginText (OpConcat (OpRepeat 8 perlDigit) OpEndText).

End regexp.

(** ** Temperature conversion (service B)

    The operations are the binary64 ones, each rounded on its own (the
    unfused evaluation of [celsius*1.8 + 32]). *)

Local Open Scope float_scope.

Definition celsiusToFahrenheit (celsius : float) : float := celsius * 1.8 + 32.

Definition celsiusToKelvin (celsius : float) : float := celsius + 273.15.

Local Close Scope float_scope.

(** ** Messages

    [CEPRequest] and [ErrorResponse] are declared identically in both
    services. *)

Record CEPRequest : Type := { CEP : string }.

Record ErrorResponse : Type := { Message : string }.

Record WeatherResponse : Type := {
  City : string;
  TempC : float;
  TempF : float;
  TempK : float
}.

(** The field [CEP] of [ViaCEPResponse] is [ViaCEP_CEP] here; the two
    anonymous structs of [WeatherAPIResponse] are [WeatherAPILocation] and
    [WeatherAPICurrent]. *)
Record ViaCEPResponse : Type := {
  ViaCEP_CEP : string;
  Logradouro : string;
  Complemento : string;
  Bairro : string;
  Localidade : string;
  UF : string;
  IBGE : string;
  GIA : string;
  DDD : string;
  SIAFI : string;
  Erro : bool
}.

Record WeatherAPILocation : Type := {
  Name : string;
  Region : string;
  Country : string
}.

Record WeatherAPICurrent : Type := {
  Current_TempC : float;
  Current_TempF : float
}.

Record WeatherAPIResponse : Type := {
  Location : WeatherAPILocation;
  Current : WeatherAPICurrent
}.

(** ** Message bodies

    The bytes [encoding/json] produces for a value of the repository's
    types are kept symbolic ([Marshal v]); everything else is raw bytes. *)

Inductive JSONValue : Type :=
| JCEPRequest (r : CEPRequest)
| JErrorResponse (e : ErrorResponse)
| JWeatherResponse (w : WeatherResponse).

Inductive Chunk : Type :=
| Raw (bytes : string)
| Marshal (v : JSONValue).

Definition Body : Type := list Chunk.

Definition finite (f : float) : bool := negb (is_nan f) && negb (is_infinity f).

(** [encoding/json] refuses NaN and the infinities (UnsupportedValueError);
    strings always encode. *)
Definition marshalable (v : JSONValue) : bool :=
  match v with
  | JCEPRequest _ => true
  | JErrorResponse _ => true
  | JWeatherResponse w => finite (TempC w) && finite (TempF w) && finite (TempK w)
  end.

(** [json.Marshal]. *)
Definition json_Marshal (v : JSONValue) : option Body :=
  if marshalable v then Some [Marshal v] else None.

(** ** Errors: a Go [error] is its message *)

Inductive result (A : Type) : Type :=
| Ok (a : A)
| Err (msg : string).

Arguments Ok {A} a.
Arguments Err {A} msg.

(** ** net/http *)

Record Request : Type := {
  Method : string;
  URL : string;
  ReqHeader : gmap string string;
  ReqBody : Body
}.

(** A response as a client reads it; [RespBody] is [None] when reading the
    body fails. *)
Record Response : Type := {
  StatusCode : Z;
  Header : gmap string string;
  RespBody : option Body
}.

(** The outcome of [client.Do]. *)
Inductive RoundTrip : Type :=
| DoError (err : string)
| DoResponse (resp : Response).

(** An [http.ResponseWriter]: the header map, the status line and headers
    once they are sent, and the body written so far. *)
Record ResponseWriter : Type := {
  rwHeader : gmap string string;
  rwSent : option (Z * gmap string string);
  rwBody : Body
}.

Definition newResponseWriter : ResponseWriter :=
  {| rwHeader := ∅; rwSent := None; rwBody := [] |}.

Definition HeaderSet (k v : string) (w : ResponseWriter) : ResponseWriter :=
  {| rwHeader := <[k := v]> (rwHeader w); rwSent := rwSent w; rwBody := rwBody w |}.

(** Only the first [WriteHeader] takes effect. *)
Definition WriteHeader (code : Z) (w : ResponseWriter) : ResponseWriter :=
  match rwSent w with
  | Some _ => w
  | None =>
      {| rwHeader := rwHeader w; rwSent := Some (code, rwHeader w); rwBody := rwBody w |}
  end.

(** [Write] sends status 200 first when no status is sent yet. *)
Definition Write (b : Body) (w : ResponseWriter) : ResponseWriter :=
  let w' := WriteHeader 200 w in
  {| rwHeader := rwHeader w'; rwSent := rwSent w'; rwBody := rwBody w' ++ b |}.

(** What the client receives once the handler returns. *)
Definition sentResponse (w : ResponseWriter) : Response :=
  match rwSent w with
  | Some (code, h) => {| StatusCode := code; Header := h; RespBody := Some (rwBody w) |}
  | None => {| StatusCode := 200; Header := rwHeader w; RespBody := Some (rwBody w) |}
  end.

Definition StatusOK : Z := 200.
Definition StatusBadRequest : Z := 400.
Definition StatusNotFound : Z := 404.
Definition StatusMethodNotAllowed : Z := 405.
Definition StatusUnprocessableEntity : Z := 422.
Definition StatusInternalServerError : Z := 500.

Definition MethodPost : string := "POST".

(** ** net/url: [QueryEscape] *)
Module url.

Definition upperhex (d : Z) : ascii :=
  ascii_of_N (Z.to_N (if d <? 10 then 48 + d else 55 + d)).

(** [shouldEscape c encodeQueryComponent]: everything but the unreserved
    characters (letters, digits, [-], [_], [.], [~]). *)
Definition shouldEscape (c : ascii) : bool :=
  let b := byteZ c in
  negb (((97 <=? b) && (b <=? 122)) || ((65 <=? b) && (b <=? 90))
        || ((48 <=? b) && (b <=? 57))
        || (b =? 45) || (b =? 95) || (b =? 46) || (b =? 126)).

Fixpoint QueryEscape (s : string) : string :=
  match s with
  | EmptyString => EmptyString
  | String c t =>
      let b := byteZ c in
      if shouldEscape c then
        if b =? 32 then String "+"%char (QueryEscape t)
        else String "%"%char
               (String (upperhex (Z.shiftr b 4))
                  (String (upperhex (Z.land b 15)) (QueryEscape t)))
      else String c (QueryEscape t)
  end.

End url.

(** ** The libraries and the outside world

    [encoding/json] decoding and [url.Parse] are taken as given: a decoder
    answers [None] when [Decode] returns an error. *)
Class Libraries : Type := {
  json_Decode_CEPRequest : Body -> option CEPRequest;
  json_Decode_ViaCEPResponse : Body -> option ViaCEPResponse;
  json_Decode_WeatherAPIResponse : Body -> option WeatherAPIResponse;
  (** the error of [url.Parse], if any *)
  url_Parse_error : string -> option string
}.

(** The environment of a running service: its variables and what the
    network answers to an outbound request. *)
Record World : Type := {
  environ : gmap string string;
  transport : Request -> RoundTrip
}.

(** [os.Getenv]: the empty string when the variable is unset. *)
Definition Getenv (w : World) (key : string) : string :=
  default "" (environ w !! key).

(** ** Handlers: a state monad over the response writer and the log of
    outbound requests *)

Record HandlerState : Type := {
  writer : ResponseWriter;
  outbound : list Request
}.

Definition initialState : HandlerState :=
  {| writer := newResponseWriter; outbound := [] |}.

Definition Handler (A : Type) : Type := HandlerState -> A * HandlerState.

Definition ret {A : Type} (a : A) : Handler A := fun st => (a, st).

Definition bind {A B : Type} (m : Handler A) (k : A -> Handler B) : Handler B :=
  fun st => let '(a, st') := m st in k a st'.

Declare Scope handler_scope.
Delimit Scope handler_scope with handler.
Notation "x <- m ;; k" := (bind m (fun x => k))
  (at level 100, m at next level, right associativity) : handler_scope.
Notation "m ;; k" := (bind m (fun _ => k))
  (at level 100, right associativity) : handler_scope.
Local Open Scope handler_scope.

Definition onWriter (f : ResponseWriter -> ResponseWriter) : Handler unit :=
  fun st => (tt, {| writer := f (writer st); outbound := outbound st |}).

Definition newline : string := String "010"%char EmptyString.

(** [json.NewEncoder(w).Encode(v)]: the encoding and a newline, or nothing
    at all when the value does not marshal (the handlers only log that). *)
Definition Encode (v : JSONValue) : Handler unit :=
  match json_Marshal v with
  | Some b => onWriter (Write (b ++ [Raw newline]))
  | None => ret tt
  end.

(** [http.Error]. *)
Definition http_Error (error : string) (code : Z) : Handler unit :=
  onWriter (HeaderSet "Content-Type" "text/plain; charset=utf-8") ;;
  onWriter (HeaderSet "X-Content-Type-Options" "nosniff") ;;
  onWriter (WriteHeader code) ;;
  onWriter (Write [Raw (error +:+ newline)]).

(** [http.NewRequestWithContext] with a valid method: it fails when the
    URL does not parse. *)
Definition NewRequest `{Libraries} (method url : string) (body : Body) : result Request :=
  match url_Parse_error url with
  | Some e => Err e
  | None => Ok {| Method := method; URL := url; ReqHeader := ∅; ReqBody := body |}
  end.

(** [client.Do]: the request goes out and is logged. *)
Definition clientDo (world : World) (req : Request) : Handler RoundTrip :=
  fun st =>
    (transport world req,
     {| writer := writer st; outbound := outbound st ++ [req] |}).

(** ** Service B: the Resolver

    Spans, attributes and log lines are observability only and are left
    out. *)
Module ServiceB.

Definition isValidCEP (cep : string) : bool :=
  (* Check if CEP is exactly 8 digits *)
  regexp.MatchString regexp.cepPattern cep.

Definition writeErrorResponse (message : string) (statusCode : Z) : Handler unit :=
  onWriter (HeaderSet "Content-Type" "application/json") ;;
  onWriter (WriteHeader statusCode) ;;
  Encode (JErrorResponse {| Message := message |}).

Definition placeholderKey : string := "your_weather_api_key_here".

Definition mockTempC : float := 22.5%float.

Section WithWorld.
Context `{lib : Libraries} (world : World).

Definition getLocationFromCEP (cep : string) : Handler (result string) :=
  (* Make request to ViaCEP *)
  let url := "https://viacep.com.br/ws/" +:+ cep +:+ "/json/" in
  match NewRequest "GET" url [] with
  | Err e => ret (Err ("failed to create request: " +:+ e))
  | Ok req =>
      r <- clientDo world req ;;
      match r with
      | DoError e => ret (Err ("failed to make request to ViaCEP: " +:+ e))
      | DoResponse resp =>
          if negb (StatusCode resp =? StatusOK) then
            ret (Err ("ViaCEP returned status " +:+ pretty (StatusCode resp)))
          else
            match RespBody resp ≫= json_Decode_ViaCEPResponse with
            | None => ret (Err "can not find zipcode")
            | Some viaCEPResp =>
                (* Check if CEP was found *)
                if Erro viaCEPResp then ret (Err "can not find zipcode")
                else ret (Ok (Localidade viaCEPResp))
            end
      end
  end.

Definition getWeatherFromAPI (location : string) : Handler (result WeatherResponse) :=
  let weatherAPIKey := Getenv world "WEATHER_API_KEY" in
  if String.eqb weatherAPIKey "" || String.eqb weatherAPIKey placeholderKey then
    (* Return mock data for testing when API key is not configured *)
    let tempC := mockTempC in
    ret (Ok {| City := location;
               TempC := tempC;
               TempF := celsiusToFahrenheit tempC;
               TempK := celsiusToKelvin tempC |})
  else
    (* Make request to WeatherAPI *)
    let apiURL :=
      "http://api.weatherapi.com/v1/current.json?key=" +:+ weatherAPIKey
        +:+ "&q=" +:+ url.QueryEscape location +:+ "&aqi=no" in
    match NewRequest "GET" apiURL [] with
    | Err e => ret (Err ("failed to create request: " +:+ e))
    | Ok req =>
        r <- clientDo world req ;;
        match r with
        | DoError e => ret (Err ("failed to make request to WeatherAPI: " +:+ e))
        | DoResponse resp =>
            if negb (StatusCode resp =? StatusOK) then
              ret (Err ("WeatherAPI returned status " +:+ pretty (StatusCode resp)))
            else
              match RespBody resp ≫= json_Decode_WeatherAPIResponse with
              | None => ret (Err "failed to decode WeatherAPI response")
              | Some weatherResp =>
                  (* Convert temperatures *)
                  let tempC := Current_TempC (Current weatherResp) in
                  let tempF := celsiusToFahrenheit tempC in
                  let tempK := celsiusToKelvin tempC in
                  ret (Ok {| City := Name (Location weatherResp);
                             TempC := tempC;
                             TempF := tempF;
                             TempK := tempK |})
              end
        end
    end.

Definition handleWeather (r : Request) : Handler unit :=
  if negb (String.eqb (Method r) MethodPost) then
    http_Error "Method not allowed" StatusMethodNotAllowed
  else
    (* Parse request body *)
    match json_Decode_CEPRequest (ReqBody r) with
    | None => writeErrorResponse "invalid request body" StatusBadRequest
    | Some req =>
        (* Validate CEP format *)
        if negb (isValidCEP (CEP req)) then
          writeErrorResponse "invalid zipcode" StatusUnprocessableEntity
        else
          (* Get location from ViaCEP *)
          l <- getLocationFromCEP (CEP req) ;;
          match l with
          | Err err =>
              if String.eqb err "CEP not found" || String.eqb err "can not find zipcode" then
                writeErrorResponse "can not find zipcode" StatusNotFound
              else
                writeErrorResponse "internal server error" StatusInternalServerError
          | Ok location =>
              (* Get weather from WeatherAPI *)
              wr <- getWeatherFromAPI location ;;
              match wr with
              | Err _ =>
                  writeErrorResponse "internal server error" StatusInternalServerError
              | Ok weather =>
                  (* Return response *)
                  onWriter (HeaderSet "Content-Type" "application/json") ;;
                  onWriter (WriteHeader StatusOK) ;;
                  Encode (JWeatherResponse weather)
              end
          end
    end.

(** One request served from a fresh response writer: what the client
    gets and the outbound requests that were made. *)
Definition serve (r : Request) : Response * list Request :=
  let st := snd (handleWeather r initialState) in
  (sentResponse (writer st), outbound st).

End WithWorld.

End ServiceB.

(** ** Service A: the Gateway *)
Module ServiceA.

Definition isValidCEP (cep : string) : bool :=
  (* Check if CEP is exactly 8 digits *)
  regexp.MatchString regexp.cepPattern cep.

Definition writeErrorResponse (message : string) (statusCode : Z) : Handler unit :=
  onWriter (HeaderSet "Content-Type" "application/json") ;;
  onWriter (WriteHeader statusCode) ;;
  Encode (JErrorResponse {| Message := message |}).

Section WithWorld.
Context `{lib : Libraries} (world : World).

(** The Go [error] returned is [None] for [nil]. *)
Definition forwardToServiceB (cep : string) : Handler (option string) :=
  let serviceBURL :=
    let v := Getenv world "SERVICE_B_URL" in
    if String.eqb v "" then "http://localhost:8081" else v in
  (* Create request payload *)
  let payload := {| CEP := cep |} in
  match json_Marshal (JCEPRequest payload) with
  | None => ret (Some "failed to marshal request")
  | Some jsonData =>
      (* Create request *)
      match NewRequest "POST" (serviceBURL +:+ "/weather") jsonData with
      | Err e => ret (Some ("failed to create request: " +:+ e))
      | Ok req0 =>
          let req :=
            {| Method := Method req0; URL := URL req0;
               ReqHeader := <["Content-Type" := "application/json"]> (ReqHeader req0);
               ReqBody := ReqBody req0 |} in
          (* Make request *)
          r <- clientDo world req ;;
          match r with
          | DoError e => ret (Some ("failed to make request to Service B: " +:+ e))
          | DoResponse resp =>
              (* Copy response *)
              onWriter (HeaderSet "Content-Type" "application/json") ;;
              onWriter (WriteHeader (StatusCode resp)) ;;
              match RespBody resp with
              | None => ret (Some "failed to read response body")
              | Some body =>
                  onWriter (Write body) ;;
                  ret None
              end
          end
      end
  end.

Definition handleCEP (r : Request) : Handler unit :=
  if negb (String.eqb (Method r) MethodPost) then
    http_Error "Method not allowed" StatusMethodNotAllowed
  else
    (* Parse request body *)
    match json_Decode_CEPRequest (ReqBody r) with
    | None => writeErrorResponse "invalid request body" StatusBadRequest
    | Some req =>
        (* Validate CEP *)
        if negb (isValidCEP (CEP req)) then
          writeErrorResponse "invalid zipcode" StatusUnprocessableEntity
        else
          (* Forward to Service B *)
          e <- forwardToServiceB (CEP req) ;;
          match e with
          | Some _ =>
              writeErrorResponse "internal server error" StatusInternalServerError
          | None => ret tt
          end
    end.

Definition serve (r : Request) : Response * list Request :=
  let st := snd (handleCEP r initialState) in
  (sentResponse (writer st), outbound st).

End WithWorld.

End ServiceA.

(** * Specification-side vocabulary *)

(** An ASCII decimal digit, ['0'] (48) to ['9'] (57). *)
Definition asciiDigit (c : ascii) : Prop := 48 <= byteZ c <= 57.

Definition eightDigits (s : string) : Prop :=
  String.length s = 8%nat /\ Forall asciiDigit (list_ascii_of_string s).

Definition isDigitByte (c : ascii) : bool := (48 <=? byteZ c) && (byteZ c <=? 57).

(** Strip [n] leading digit bytes. *)
Fixpoint takeDigits (n : nat) (s : string) : option string :=
  match n with
  | O => Some s
  | S k =>
      match s with
      | EmptyString => None
      | String c t => if isDigitByte c then takeDigits k t else None
      end
  end.

(** The classes of a leading byte above [RuneSelf]. *)
Inductive leadClass (b : Z) : Z -> Prop :=
| lead_xx : utf8.first b = utf8.xx -> leadClass b utf8.xx
| lead_s1 : 0xC2 <= b <= 0xDF -> leadClass b utf8.s1
| lead_s2 : b = 0xE0 -> leadClass b utf8.s2
| lead_s3 : 0xE1 <= b <= 0xEF -> leadClass b utf8.s3
| lead_s4 : b = 0xED -> leadClass b utf8.s4
| lead_s5 : b = 0xF0 -> leadClass b utf8.s5
| lead_s6 : 0xF1 <= b <= 0xF3 -> leadClass b utf8.s6
| lead_s7 : b = 0xF4 -> leadClass b utf8.s7.

Definition jsonHeader : gmap string string :=
  <["Content-Type" := "application/json"]> ∅.

(** What [writeErrorResponse message code] sends from a fresh writer. *)
Definition errorResponse (message : string) (code : Z) : Response :=
  {| StatusCode := code;
     Header := jsonHeader;
     RespBody := Some [Marshal (JErrorResponse {| Message := message |}); Raw newline] |}.

(** The body of a success response: nothing when the result does not
    marshal. *)
Definition weatherBody (weather : WeatherResponse) : Body :=
  if marshalable (JWeatherResponse weather)
  then [Marshal (JWeatherResponse weather); Raw newline]
  else [].

(** The request service B sends to ViaCEP. *)
Definition viaCEPURL (cep : string) : string :=
  "https://viacep.com.br/ws/" +:+ cep +:+ "/json/".

Definition viaCEPRequest (cep : string) : Request :=
  {| Method := "GET"; URL := viaCEPURL cep; ReqHeader := ∅; ReqBody := [] |}.

(** The request service B sends to WeatherAPI. *)
Definition weatherAPIURL (key location : string) : string :=
  "http://api.weatherapi.com/v1/current.json?key=" +:+ key
    +:+ "&q=" +:+ url.QueryEscape location +:+ "&aqi=no".

Definition weatherAPIRequest (key location : string) : Request :=
  {| Method := "GET"; URL := weatherAPIURL key location; ReqHeader := ∅; ReqBody := [] |}.

(** The request service A sends to service B. *)
Definition serviceBURL (world : World) : string :=
  (let v := Getenv world "SERVICE_B_URL" in
   if String.eqb v "" then "http://localhost:8081" else v) +:+ "/weather".

Definition serviceBRequest (world : World) (cep : string) : Request :=
  {| Method := "POST";
     URL := serviceBURL world;
     ReqHeader := <["Content-Type" := "application/json"]> ∅;
     ReqBody := [Marshal (JCEPRequest {| CEP := cep |})] |}.

(** The credential of the weather provider is configured. *)
Definition credentialConfigured (world : World) : Prop :=
  Getenv world "WEATHER_API_KEY" <> "" /\
  Getenv world "WEATHER_API_KEY" <> ServiceB.placeholderKey.

(** The ways the location lookup fails before a body is decoded. *)
Inductive locationLookupBreaks `{Libraries} (world : World) (cep : string) : Prop :=
| location_request_error (e : string) :
    url_Parse_error (viaCEPURL cep) = Some e ->
    locationLookupBreaks world cep
| location_network_error (e : string) :
    url_Parse_error (viaCEPURL cep) = None ->
    transport world (viaCEPRequest cep) = DoError e ->
    locationLookupBreaks world cep
| location_bad_status (resp : Response) :
    url_Parse_error (viaCEPURL cep) = None ->
    transport world (viaCEPRequest cep) = DoResponse resp ->
    StatusCode resp <> StatusOK ->
    locationLookupBreaks world cep.

(** The ways the weather lookup fails once the credential is configured. *)
Inductive weatherLookupBreaks `{Libraries} (world : World) (location : string) : Prop :=
| weather_request_error (e : string) :
    url_Parse_error (weatherAPIURL (Getenv world "WEATHER_API_KEY") location) = Some e ->
    weatherLookupBreaks world location
| weather_network_error (e : string) :
    url_Parse_error (weatherAPIURL (Getenv world "WEATHER_API_KEY") location) = None ->
    transport world (weatherAPIRequest (Getenv world "WEATHER_API_KEY") location)
      = DoError e ->
    weatherLookupBreaks world location
| weather_bad_status (resp : Response) :
    url_Parse_error (weatherAPIURL (Getenv world "WEATHER_API_KEY") location) = None ->
    transport world (weatherAPIRequest (Getenv world "WEATHER_API_KEY") location)
      = DoResponse resp ->
    StatusCode resp <> StatusOK ->
    weatherLookupBreaks world location
| weather_bad_body (resp : Response) :
    url_Parse_error (weatherAPIURL (Getenv world "WEATHER_API_KEY") location) = None ->
    transport world (weatherAPIRequest (Getenv world "WEATHER_API_KEY") location)
      = DoResponse resp ->
    StatusCode resp = StatusOK ->
    RespBody resp ≫= json_Decode_WeatherAPIResponse = None ->
    weatherLookupBreaks world location.

(** The result of each lookup as a function of the provider's answer; the
    lookups are shown below to compute exactly these. *)
Definition locationOutcome `{Libraries} (r : RoundTrip) : result string :=
  match r with
  | DoError e => Err ("failed to make request to ViaCEP: " +:+ e)
  | DoResponse resp =>
      if negb (StatusCode resp =? StatusOK) then
        Err ("ViaCEP returned status " +:+ pretty (StatusCode resp))
      else
        match RespBody resp ≫= json_Decode_ViaCEPResponse with
        | None => Err "can not find zipcode"
        | Some viaCEPResp =>
            if Erro viaCEPResp then Err "can not find zipcode"
            else Ok (Localidade viaCEPResp)
        end
  end.

Definition weatherOutcome `{Libraries} (r : RoundTrip) : result WeatherResponse :=
  match r with
  | DoError e => Err ("failed to make request to WeatherAPI: " +:+ e)
  | DoResponse resp =>
      if negb (StatusCode resp =? StatusOK) then
        Err ("WeatherAPI returned status " +:+ pretty (StatusCode resp))
      else
        match RespBody resp ≫= json_Decode_WeatherAPIResponse with
        | None => Err "failed to decode WeatherAPI response"
        | Some weatherResp =>
            let tempC := Current_TempC (Current weatherResp) in
            Ok {| City := Name (Location weatherResp);
                  TempC := tempC;
                  TempF := celsiusToFahrenheit tempC;
                  TempK := celsiusToKelvin tempC |}
        end
  end.

(** The handler state after one more outbound request. *)
Definition sent (st : HandlerState) (req : Request) : HandlerState :=
  {| writer := writer st; outbound := outbound st ++ [req] |}.

(** What service B sends on success. *)
Definition weatherResponse (weather : WeatherResponse) : Response :=
  {| StatusCode := StatusOK; Header := jsonHeader; RespBody := Some (weatherBody weather) |}.

(** The answers of service B to a POST, each with the path that leads to
    it. *)
Inductive ResolverAnswer `{Libraries} (world : World) (r : Request) : Response -> Prop :=
| answer_bad_body :
    json_Decode_CEPRequest (ReqBody r) = None ->
    ResolverAnswer world r (errorResponse "invalid request body" StatusBadRequest)
| answer_invalid (req : CEPRequest) :
    json_Decode_CEPRequest (ReqBody r) = Some req ->
    ServiceB.isValidCEP (CEP req) = false ->
    ResolverAnswer world r (errorResponse "invalid zipcode" StatusUnprocessableEntity)
| answer_not_found (req : CEPRequest) :
    json_Decode_CEPRequest (ReqBody r) = Some req ->
    ServiceB.isValidCEP (CEP req) = true ->
    ResolverAnswer world r (errorResponse "can not find zipcode" StatusNotFound)
| answer_failure (req : CEPRequest) :
    json_Decode_CEPRequest (ReqBody r) = Some req ->
    ServiceB.isValidCEP (CEP req) = true ->
    ResolverAnswer world r (errorResponse "internal server error" StatusInternalServerError)
| answer_weather (req : CEPRequest) (location : string) (weather : WeatherResponse)
    (st : HandlerState) :
    json_Decode_CEPRequest (ReqBody r) = Some req ->
    ServiceB.isValidCEP (CEP req) = true ->
    fst (ServiceB.getLocationFromCEP world (CEP req) initialState) = Ok location ->
    fst (ServiceB.getWeatherFromAPI world location st) = Ok weather ->
    ResolverAnswer world r (weatherResponse weather).

(** Where the city of a weather result comes from. *)
Inductive CitySource `{Libraries} (world : World) (location : string)
    (weather : WeatherResponse) : Prop :=
| city_mock :
    City weather = location ->
    TempC weather = ServiceB.mockTempC ->
    CitySource world location weather
| city_provider (resp : Response) (api : WeatherAPIResponse) :
    transport world (weatherAPIRequest (Getenv world "WEATHER_API_KEY") location)
      = DoResponse resp ->
    RespBody resp ≫= json_Decode_WeatherAPIResponse = Some api ->
    City weather = Name (Location api) ->
    TempC weather = Current_TempC (Current api) ->
    CitySource world location weather.

(** * Sample libraries and worlds

    Used to run the services on concrete requests.  The decoders are finite
    tables of what [encoding/json] answers for the listed texts; every other
    text is treated as undecodable. *)
Module Sample.

Definition quote (s : string) : string :=
  String "034"%char (s +:+ String "034"%char EmptyString).

(** The text [{"cep":"<cep>"}]. *)
Definition cepJSON (cep : string) : string :=
  "{" +:+ quote "cep" +:+ ":" +:+ quote cep +:+ "}".

(** The text [{"erro":true}]. *)
Definition erroJSON : string := "{" +:+ quote "erro" +:+ ":true}".

(** The text [{"localidade":"São Paulo","uf":"SP"}]. *)
Definition saoPauloJSON : string :=
  "{" +:+ quote "localidade" +:+ ":" +:+ quote "São Paulo" +:+ ","
      +:+ quote "uf" +:+ ":" +:+ quote "SP" +:+ "}".

(** The text [{"location":{"name":"Sao Paulo"},"current":{"temp_c":25.0,"temp_f":77.0}}]. *)
Definition weatherJSON : string :=
  "{" +:+ quote "location" +:+ ":{" +:+ quote "name" +:+ ":" +:+ quote "Sao Paulo" +:+ "},"
      +:+ quote "current" +:+ ":{" +:+ quote "temp_c" +:+ ":25.0,"
      +:+ quote "temp_f" +:+ ":77.0}}".

Definition lookupText {A : Type} (table : list (string * A)) (s : string) : option A :=
  snd <$> find (fun e => String.eqb (fst e) s) table.

Definition zeroViaCEP : ViaCEPResponse :=
  {| ViaCEP_CEP := ""; Logradouro := ""; Complemento := ""; Bairro := "";
     Localidade := ""; UF := ""; IBGE := ""; GIA := ""; DDD := ""; SIAFI := "";
     Erro := false |}.

Definition erroViaCEP : ViaCEPResponse :=
  {| ViaCEP_CEP := ""; Logradouro := ""; Complemento := ""; Bairro := "";
     Localidade := ""; UF := ""; IBGE := ""; GIA := ""; DDD := ""; SIAFI := "";
     Erro := true |}.

Definition saoPauloViaCEP : ViaCEPResponse :=
  {| ViaCEP_CEP := ""; Logradouro := ""; Complemento := ""; Bairro := "";
     Localidade := "São Paulo"; UF := "SP"; IBGE := ""; GIA := ""; DDD := "";
     SIAFI := ""; Erro := false |}.

Definition saoPauloWeather : WeatherAPIResponse :=
  {| Location := {| Name := "Sao Paulo"; Region := ""; Country := "" |};
     Current := {| Current_TempC := 25%float; Current_TempF := 77%float |} |}.

Definition decodeCEPRequest (b : Body) : option CEPRequest :=
  match b with
  | [Raw s] =>
      lookupText
        [("{}", {| CEP := "" |});
         (cepJSON "01001000", {| CEP := "01001000" |});
         (cepJSON "99999999", {| CEP := "99999999" |});
         (cepJSON "00000000", {| CEP := "00000000" |});
         (cepJSON "11111111", {| CEP := "11111111" |});
         (cepJSON "22222222", {| CEP := "22222222" |});
       (cepJSON "33333333", {| CEP := "33333333" |});
         (cepJSON "123", {| CEP := "123" |})] s
  | [Marshal (JCEPRequest r)] => Some r
  | _ => None
  end.

Definition decodeViaCEP (b : Body) : option ViaCEPResponse :=
  match b with
  | [Raw s] =>
      lookupText
        [("{}", zeroViaCEP); (erroJSON, erroViaCEP); (saoPauloJSON, saoPauloViaCEP)] s
  | _ => None
  end.

Definition decodeWeatherAPI (b : Body) : option WeatherAPIResponse :=
  match b with
  | [Raw s] => lookupText [(weatherJSON, saoPauloWeather)] s
  | _ => None
  end.

(** [url.Parse] refuses control characters; the sample checks only that. *)
Fixpoint hasControlByte (s : string) : bool :=
  match s with
  | EmptyString => false
  | String c t => (byteZ c <? 32) || (byteZ c =? 127) || hasControlByte t
  end.

Definition lib : Libraries :=
  {| json_Decode_CEPRequest := decodeCEPRequest;
     json_Decode_ViaCEPResponse := decodeViaCEP;
     json_Decode_WeatherAPIResponse := decodeWeatherAPI;
     url_Parse_error := fun u =>
       if hasControlByte u then Some "net/url: invalid control character in URL"
       else None |}.

Definition okResponse (text : string) : Response :=
  {| StatusCode := 200; Header := jsonHeader; RespBody := Some [Raw text] |}.

Definition ok (text : string) : RoundTrip := DoResponse (okResponse text).

Definition unavailableResponse : Response :=
  {| StatusCode := 503; Header := ∅; RespBody := Some [] |}.

Definition unavailable : RoundTrip := DoResponse unavailableResponse.

(** A network that answers by URL and refuses every other connection. *)
Definition network (routes : list (string * RoundTrip)) (req : Request) : RoundTrip :=
  default (DoError "dial tcp: connection refused") (lookupText routes (URL req)).

Definition viaCEPRoutes : list (string * RoundTrip) :=
  [(viaCEPURL "01001000", ok saoPauloJSON);
   (viaCEPURL "99999999", ok erroJSON);
   (viaCEPURL "00000000", ok "<html>");
   (viaCEPURL "11111111", ok "{}");
   (viaCEPURL "22222222", unavailable)].

(** Service B without a weather credential. *)
Definition resolverMock : World :=
  {| environ := ∅; transport := network viaCEPRoutes |}.

(** Service B with the placeholder credential of [.env.example]. *)
Definition resolverPlaceholder : World :=
  {| environ := {[ "WEATHER_API_KEY" := ServiceB.placeholderKey ]};
     transport := network viaCEPRoutes |}.

(** Service B with a credential and a weather provider that answers. *)
Definition resolverLive : World :=
  {| environ := {[ "WEATHER_API_KEY" := "k3y" ]};
     transport :=
       network ((weatherAPIURL "k3y" "São Paulo", ok weatherJSON) :: viaCEPRoutes) |}.

(** Service B with a credential and a weather provider that is down. *)
Definition resolverWeatherDown : World :=
  {| environ := {[ "WEATHER_API_KEY" := "k3y" ]};
     transport :=
       network ((weatherAPIURL "k3y" "São Paulo", unavailable) :: viaCEPRoutes) |}.

(** Service A in front of a service B that runs in [resolver]. *)
Definition gateway (resolver : World) : World :=
  {| environ := ∅;
     transport := fun req =>
       if String.eqb (URL req) "http://localhost:8081/weather"
       then DoResponse (fst (ServiceB.serve (lib := lib) resolver req))
       else DoError "dial tcp: connection refused" |}.

Definition post (text : string) : Request :=
  {| Method := "POST"; URL := "/"; ReqHeader := jsonHeader; ReqBody := [Raw text] |}.

End Sample.

(** * Further vocabulary *)

(** What [http.Error] sends for a method other than POST. *)
Definition methodNotAllowed : Response :=
  {| StatusCode := StatusMethodNotAllowed;
     Header :=
       <["X-Content-Type-Options" := "nosniff"]>
         (<["Content-Type" := "text/plain; charset=utf-8"]> ∅);
     RespBody := Some [Raw ("Method not allowed" +:+ newline)] |}.

(** The comparison of [handleWeather] that selects the 404 answer. *)
Definition isNotFoundText (err : string) : bool :=
  String.eqb err "CEP not found" || String.eqb err "can not find zipcode".



(** The answer of service B to a well-formed request, by the answers of the
    two providers. *)
Definition resolverAnswer `{Libraries} (world : World) (cep : string)
    : Response * list Request :=
  match url_Parse_error (viaCEPURL cep) with
  | Some _ => (errorResponse "internal server error" StatusInternalServerError, [])
  | None =>
      match locationOutcome (transport world (viaCEPRequest cep)) with
      | Err err =>
          (if isNotFoundText err
           then errorResponse "can not find zipcode" StatusNotFound
           else errorResponse "internal server error" StatusInternalServerError,
           [viaCEPRequest cep])
      | Ok location =>
          let key := Getenv world "WEATHER_API_KEY" in
          if String.eqb key "" || String.eqb key ServiceB.placeholderKey then
            (weatherResponse
               {| City := location; TempC := ServiceB.mockTempC;
                  TempF := celsiusToFahrenheit ServiceB.mockTempC;
                  TempK := celsiusToKelvin ServiceB.mockTempC |},
             [viaCEPRequest cep])
          else
            match url_Parse_error (weatherAPIURL key location) with
            | Some _ =>
                (errorResponse "internal server error" StatusInternalServerError,
                 [viaCEPRequest cep])
            | None =>
                (match weatherOutcome (transport world (weatherAPIRequest key location)) with
                 | Ok weather => weatherResponse weather
                 | Err _ =>
                     errorResponse "internal server error" StatusInternalServerError
                 end,
                 [viaCEPRequest cep; weatherAPIRequest key location])
            end
      end
  end.

(** A provider whose reading overflows the Fahrenheit conversion. *)
Module Overflow.

(** The text [{"location":{"name":"Venus"},"current":{"temp_c":1e308}}]. *)
Definition hotJSON : string :=
  "{" +:+ Sample.quote "location" +:+ ":{" +:+ Sample.quote "name" +:+ ":"
      +:+ Sample.quote "Venus" +:+ "}," +:+ Sample.quote "current" +:+ ":{"
      +:+ Sample.quote "temp_c" +:+ ":1e308}}".

Definition hotWeather : WeatherAPIResponse :=
  {| Location := {| Name := "Venus"; Region := ""; Country := "" |};
     Current := {| Current_TempC := 1e308%float; Current_TempF := 0%float |} |}.

Definition lib : Libraries :=
  {| json_Decode_CEPRequest := Sample.decodeCEPRequest;
     json_Decode_ViaCEPResponse := Sample.decodeViaCEP;
     json_Decode_WeatherAPIResponse := fun b =>
       match b with
       | [Raw s] => Sample.lookupText [(hotJSON, hotWeather)] s
       | _ => None
       end;
     url_Parse_error := fun u =>
       if Sample.hasControlByte u then Some "net/url: invalid control character in URL"
       else None |}.

Definition resolver : World :=
  {| environ := {[ "WEATHER_API_KEY" := "k3y" ]};
     transport :=
       Sample.network
         ((weatherAPIURL "k3y" "São Paulo", Sample.ok hotJSON) :: Sample.viaCEPRoutes) |}.

End Overflow.

(** Further requests and downstream behaviours for the Gateway. *)
Module Scenario.

Definition get : Request :=
  {| Method := "GET"; URL := "/cep"; ReqHeader := ∅; ReqBody := [] |}.

(** Service B cannot be reached. *)
Definition gatewayDown : World :=
  {| environ := ∅;
     transport := fun _ => DoError "dial tcp 127.0.0.1:8081: connect: connection refused" |}.

Definition truncated : Response :=
  {| StatusCode := 200; Header := jsonHeader; RespBody := None |}.

(** The connection to service B breaks while the body is read. *)
Definition gatewayTruncated : World :=
  {| environ := ∅; transport := fun _ => DoResponse truncated |}.

Definition badGateway : Response :=
  {| StatusCode := 502;
     Header := <["Retry-After" := "5"]> (<["Content-Type" := "text/html"]> ∅);
     RespBody := Some [Raw "<html>Bad Gateway</html>"] |}.

(** A proxy in front of service B answers in its place. *)
Definition gatewayProxy : World :=
  {| environ := ∅; transport := fun _ => DoResponse badGateway |}.

End Scenario.

(** [SERVICE_B_URL] ends in a slash: the POST goes to [//weather], the mux
    of service B redirects it to [/weather], [client.Do] follows the redirect
    with a GET, and the answer the Gateway obtains is service B's refusal of
    that GET. *)
Module Redirected.

Definition followed : Request :=
  {| Method := "GET"; URL := "/weather"; ReqHeader := ∅; ReqBody := [] |}.

Definition gateway : World :=
  {| environ := {[ "SERVICE_B_URL" := "http://localhost:8081/" ]};
     transport := fun req =>
       if String.eqb (URL req) "http://localhost:8081//weather"
       then DoResponse (fst (ServiceB.serve (lib := Sample.lib) Sample.resolverMock followed))
       else DoError "dial tcp: connection refused" |}.

End Redirected.

(** * Properties *)

(** ** Runes *)

Lemma byteZ_range (c : ascii) : 0 <= byteZ c < 256.
Proof.
  unfold byteZ. pose proof (N_ascii_bounded c). lia.
Qed.

Lemma lor_ge_l (a b : Z) : 0 <= a -> 0 <= b -> a <= Z.lor a b.
Proof.
  intros Ha Hb.
  assert (Hd : Z.lor a b = Z.lor a (Z.ldiff b a)).
  { apply Z.bits_inj'. intros n Hn.
    rewrite !Z.lor_spec, Z.ldiff_spec.
    destruct (Z.testbit a n), (Z.testbit b n); reflexivity. }
  assert (Hz : Z.land a (Z.ldiff b a) = 0).
  { apply Z.bits_inj'. intros n Hn.
    rewrite Z.land_spec, Z.ldiff_spec, Z.bits_0.
    destruct (Z.testbit a n), (Z.testbit b n); reflexivity. }
  rewrite Hd, <- (Z.add_nocarry_lor _ _ Hz).
  assert (0 <= Z.ldiff b a) by (apply Z.ldiff_nonneg; lia).
  lia.
Qed.

Lemma lor_ge_r (a b : Z) : 0 <= a -> 0 <= b -> b <= Z.lor a b.
Proof. intros. rewrite Z.lor_comm. now apply lor_ge_l. Qed.

(** A masked byte shifted into place, as arithmetic. *)
Lemma field_value (b k j : Z) :
  0 <= k -> 0 <= j -> Z.shiftl (Z.land b (Z.ones k)) j = (b mod 2 ^ k) * 2 ^ j.
Proof.
  intros Hk Hj. now rewrite Z.shiftl_mul_pow2, Z.land_ones.
Qed.

Lemma field_nonneg (b k j : Z) :
  0 <= k -> 0 <= j -> 0 <= Z.shiftl (Z.land b (Z.ones k)) j.
Proof.
  intros Hk Hj. rewrite field_value by assumption.
  apply Z.mul_nonneg_nonneg.
  - apply Z.mod_pos_bound, Z.pow_pos_nonneg; lia.
  - apply Z.pow_nonneg; lia.
Qed.

Lemma low_nonneg (b k : Z) : 0 <= k -> 0 <= Z.land b (Z.ones k).
Proof.
  intros Hk. rewrite Z.land_ones by assumption.
  apply Z.mod_pos_bound, Z.pow_pos_nonneg; lia.
Qed.

Lemma first_class (b : Z) : 0x80 <= b < 256 -> leadClass b (utf8.first b).
Proof.
  intros Hb. unfold utf8.first.
  repeat match goal with
         | |- context [if ?c then _ else _] =>
             let E := fresh "E" in destruct c eqn:E
         end;
    try lia;
    first [ apply lead_s1; lia | apply lead_s2; lia | apply lead_s3; lia
          | apply lead_s4; lia | apply lead_s5; lia | apply lead_s6; lia
          | apply lead_s7; lia
          | apply lead_xx; unfold utf8.first;
            repeat match goal with
                   | H : ?c = _ |- context [if ?c then _ else _] => rewrite H
                   end; reflexivity ].
Qed.

Ltac split_decode :=
  repeat match goal with
         | |- context [match ?t with EmptyString => _ | String _ _ => _ end] =>
             destruct t
         | |- context [if ?c then _ else _] =>
             let E := fresh "E" in destruct c eqn:E
         end;
  cbn [fst];
  try lazymatch goal with
      | |- _ <= utf8.RuneError => vm_compute; discriminate
      end.

Ltac fields_nonneg :=
  repeat match goal with
         | |- 0 <= Z.lor _ _ => apply Z.lor_nonneg; split
         | |- 0 <= Z.shiftl (Z.land _ _) _ => apply field_nonneg; lia
         | |- 0 <= Z.land _ _ => apply low_nonneg; lia
         end.

Ltac eval_pow2 :=
  repeat match goal with
         | |- context [2 ^ ?k] =>
             let v := eval vm_compute in (2 ^ k) in change (2 ^ k) with v
         end.

(** Bound a rune from below by one of the fields it is assembled from. *)
Ltac rune_lb :=
  lazymatch goal with
  | |- _ <= Z.lor _ _ =>
      first [ refine (Z.le_trans _ _ _ _ (lor_ge_l _ _ _ _));
              [rune_lb | fields_nonneg ..]
            | refine (Z.le_trans _ _ _ _ (lor_ge_r _ _ _ _));
              [rune_lb | fields_nonneg ..] ]
  | |- _ <= Z.shiftl (Z.land _ _) _ =>
      rewrite field_value by lia; eval_pow2; Z.div_mod_to_equations; lia
  end.

Ltac masks_as_ones :=
  change utf8.maskx with (Z.ones 6);
  change utf8.mask2 with (Z.ones 5);
  change utf8.mask3 with (Z.ones 4);
  change utf8.mask4 with (Z.ones 3);
  unfold utf8.locb, utf8.hicb in *.

Ltac decode_case s sz lo hi :=
  change (utf8.as_ <=? s) with false;
  change (Z.to_nat (Z.land s 7)) with sz;
  change (utf8.acceptRanges (Z.shiftr s 4)) with (lo, hi);
  cbv iota beta;
  split_decode; masks_as_ones; rune_lb.

(** A rune that starts with a byte above [RuneSelf] is never ASCII. *)
Lemma DecodeRune_high (c : ascii) (t : string) :
  0x80 <= byteZ c -> 0x80 <= fst (utf8.DecodeRuneInString (String c t)).
Proof.
  intros Hc. pose proof (byteZ_range c) as Hr.
  unfold utf8.DecodeRuneInString. cbv zeta.
  set (b0 := byteZ c) in *.
  pose proof (first_class b0 (conj Hc (proj2 Hr))) as Hcl.
  destruct Hcl as [Hx | Hb | Hb | Hb | Hb | Hb | Hb | Hb].
  - vm_compute. discriminate.
  - decode_case utf8.s1 2%nat utf8.locb utf8.hicb.
  - decode_case utf8.s2 3%nat 0xA0 utf8.hicb.
  - decode_case utf8.s3 3%nat utf8.locb utf8.hicb.
  - decode_case utf8.s4 3%nat utf8.locb 0x9F.
  - decode_case utf8.s5 4%nat 0x90 utf8.hicb.
  - decode_case utf8.s6 4%nat utf8.locb utf8.hicb.
  - decode_case utf8.s7 4%nat utf8.locb 0x8F.
Qed.

(** ** The pattern [^\d{8}$] *)

Lemma step_ascii (c : ascii) (t : string) :
  byteZ c < 0x80 -> regexp.step (String c t) = (byteZ c, 1%nat).
Proof.
  intros Hc. unfold regexp.step, utf8.RuneSelf.
  destruct (byteZ c <? 128) eqn:E; [reflexivity | lia].
Qed.

Lemma step_high (c : ascii) (t : string) :
  0x80 <= byteZ c -> 0x80 <= fst (regexp.step (String c t)).
Proof.
  intros Hc. unfold regexp.step, utf8.RuneSelf.
  destruct (byteZ c <? 128) eqn:E; [lia | now apply DecodeRune_high].
Qed.

(** [\d] consumes exactly one digit byte. *)
Lemma matchAt_digit (pos : nat) (c : ascii) (t : string) :
  regexp.matchAt regexp.perlDigit (pos, String c t) =
  if isDigitByte c then [(S pos, t)] else [].
Proof.
  unfold regexp.perlDigit, isDigitByte. cbn [regexp.matchAt fst snd].
  destruct (Z.lt_ge_cases (byteZ c) 0x80) as [Hlo | Hhi].
  - rewrite (step_ascii c t Hlo). cbn [dropBytes].
    replace (pos + 1)%nat with (S pos) by lia. reflexivity.
  - pose proof (step_high c t Hhi) as Hs.
    destruct (regexp.step (String c t)) as [r w]. cbn [fst] in Hs.
    replace ((48 <=? r) && (r <=? 57)) with false by lia.
    replace ((48 <=? byteZ c) && (byteZ c <=? 57)) with false by lia.
    reflexivity.
Qed.

Lemma matchAt_digit_end (pos : nat) :
  regexp.matchAt regexp.perlDigit (pos, EmptyString) = [].
Proof. reflexivity. Qed.

Lemma iterate_nil (n : nat) (r : regexp.Regexp) :
  regexp.iterate n (flat_map (regexp.matchAt r)) [] = [].
Proof. induction n as [| n IH]; [reflexivity | exact IH]. Qed.

(** [\d{n}] consumes exactly [n] digit bytes. *)
Lemma matchAt_repeat_digit (n pos : nat) (s : string) :
  regexp.matchAt (regexp.OpRepeat n regexp.perlDigit) (pos, s) =
  match takeDigits n s with
  | Some t => [((pos + n)%nat, t)]
  | None => []
  end.
Proof.
  cbn [regexp.matchAt].
  revert pos s. induction n as [| n IH]; intros pos s.
  - cbn. now rewrite Nat.add_0_r.
  - cbn [regexp.iterate flat_map takeDigits]. rewrite app_nil_r.
    destruct s as [| c t].
    + rewrite matchAt_digit_end. apply iterate_nil.
    + rewrite matchAt_digit. destruct (isDigitByte c).
      * rewrite IH. replace (S pos + n)%nat with (pos + S n)%nat by lia. reflexivity.
      * apply iterate_nil.
Qed.

Lemma matchAt_concat (r1 r2 : regexp.Regexp) (p : regexp.Pos) :
  regexp.matchAt (regexp.OpConcat r1 r2) p =
  flat_map (regexp.matchAt r2) (regexp.matchAt r1 p).
Proof. reflexivity. Qed.

(** Anchored at [^], the pattern matches nowhere but at offset 0. *)
Lemma cepPattern_later (pos : nat) (s : string) :
  regexp.matchAt regexp.cepPattern (S pos, s) = [].
Proof. reflexivity. Qed.

Lemma search_later (pos skip : nat) (s : string) :
  regexp.search regexp.cepPattern (S pos) skip s = false.
Proof.
  revert pos skip. induction s as [| c t IH]; intros pos skip.
  - destruct skip; reflexivity.
  - destruct skip as [| k].
    + cbn [regexp.search]. rewrite cepPattern_later. cbn [regexp.nonEmpty orb]. apply IH.
    + cbn [regexp.search]. apply IH.
Qed.

Lemma cepPattern_at_start (s : string) :
  regexp.matchAt regexp.cepPattern (0%nat, s) =
  match takeDigits 8 s with
  | Some EmptyString => [(8%nat, EmptyString)]
  | _ => []
  end.
Proof.
  unfold regexp.cepPattern.
  rewrite matchAt_concat.
  change (regexp.matchAt regexp.OpBeginText (0%nat, s)) with [(0%nat, s)].
  cbn [flat_map]. rewrite app_nil_r, matchAt_concat, matchAt_repeat_digit.
  destruct (takeDigits 8 s) as [[| c t] |]; reflexivity.
Qed.

Lemma MatchString_cepPattern (s : string) :
  regexp.MatchString regexp.cepPattern s = true <-> takeDigits 8 s = Some EmptyString.
Proof.
  unfold regexp.MatchString.
  assert (Hs : regexp.search regexp.cepPattern 0 0 s =
               regexp.nonEmpty (regexp.matchAt regexp.cepPattern (0%nat, s))).
  { destruct s as [| c t]; cbn [regexp.search].
    - apply orb_false_r.
    - rewrite search_later. apply orb_false_r. }
  rewrite Hs, cepPattern_at_start.
  destruct (takeDigits 8 s) as [[| c t] |]; cbn; split; congruence.
Qed.

Lemma isDigitByte_spec (c : ascii) : isDigitByte c = true <-> asciiDigit c.
Proof. unfold isDigitByte, asciiDigit. lia. Qed.

Lemma takeDigits_spec (n : nat) (s : string) :
  takeDigits n s = Some EmptyString <->
  String.length s = n /\ Forall asciiDigit (list_ascii_of_string s).
Proof.
  revert s. induction n as [| n IH]; intros s.
  - cbn [takeDigits]. split.
    + intros [= ->]. split; [reflexivity | constructor].
    + intros [Hl _]. destruct s; [reflexivity | discriminate].
  - destruct s as [| c t]; cbn [takeDigits String.length list_ascii_of_string].
    + split; [discriminate | intros [Hl _]; discriminate].
    + destruct (isDigitByte c) eqn:Ec.
      * rewrite IH. apply isDigitByte_spec in Ec. split.
        -- intros [Hl Hf]. split; [now f_equal | now constructor].
        -- intros [Hl Hf]. inversion Hf; subst. split; [now injection Hl | assumption].
      * split; [discriminate |].
        intros [_ Hf]. inversion Hf as [| ? ? Hd _]; subst.
        apply isDigitByte_spec in Hd. congruence.
Qed.

(** C1. CEP validation, identical in the Gateway and in the Resolver,
    accepts a string if and only if it consists of exactly 8 ASCII decimal
    digits; every other string is rejected. *)
Theorem isValidCEP_iff_eight_digits (cep : string) :
  (ServiceA.isValidCEP cep = true <-> eightDigits cep) /\
  (ServiceB.isValidCEP cep = true <-> eightDigits cep) /\
  ServiceA.isValidCEP cep = ServiceB.isValidCEP cep.
Proof.
  assert (H : regexp.MatchString regexp.cepPattern cep = true <-> eightDigits cep).
  { unfold eightDigits. rewrite MatchString_cepPattern. apply takeDigits_spec. }
  split; [exact H | split; [exact H | reflexivity]].
Qed.

(** ** Temperature conversion *)

(** C4. For every Celsius value [c] the conversions are [c * 1.8 + 32] and
    [c + 273.15] in binary64 arithmetic; 25.0 gives 77.0 and 298.15, and 0.0
    gives 32.0 and 273.15. *)
Theorem conversion_formulas :
  (forall c : float,
      celsiusToFahrenheit c = (c * 1.8 + 32)%float /\
      celsiusToKelvin c = (c + 273.15)%float) /\
  celsiusToFahrenheit 25%float = 77%float /\
  celsiusToKelvin 25%float = 298.15%float /\
  celsiusToFahrenheit 0%float = 32%float /\
  celsiusToKelvin 0%float = 273.15%float.
Proof.
  split; [intros c; split; reflexivity |].
  repeat split; vm_compute; reflexivity.
Qed.

Lemma mock_reading :
  celsiusToFahrenheit ServiceB.mockTempC = 72.5%float /\
  celsiusToKelvin ServiceB.mockTempC = 295.65%float.
Proof. split; vm_compute; reflexivity. Qed.

(** ** The handlers *)

Lemma Getenv_unset (world : World) (key : string) :
  environ world !! key = None -> Getenv world key = "".
Proof. intros H. unfold Getenv. now rewrite H. Qed.

Lemma Getenv_set (world : World) (key v : string) :
  environ world !! key = Some v -> Getenv world key = v.
Proof. intros H. unfold Getenv. now rewrite H. Qed.

Lemma eqb_false_of_neq (a b : string) : a <> b -> String.eqb a b = false.
Proof. intros H. now apply String.eqb_neq. Qed.

Section Lookups.
Context `{lib : Libraries}.

(** *** Service B: the two lookups *)

Lemma getLocationFromCEP_eq (world : World) (cep : string) (st : HandlerState) :
  ServiceB.getLocationFromCEP world cep st =
    match url_Parse_error (viaCEPURL cep) with
    | Some e => (Err ("failed to create request: " +:+ e), st)
    | None =>
        (locationOutcome (transport world (viaCEPRequest cep)),
         sent st (viaCEPRequest cep))
    end.
Proof.
  unfold ServiceB.getLocationFromCEP, NewRequest. fold (viaCEPURL cep).
  destruct (url_Parse_error (viaCEPURL cep)) as [e |]; [reflexivity |].
  unfold bind, clientDo. fold (viaCEPRequest cep). fold (sent st (viaCEPRequest cep)).
  destruct (transport world (viaCEPRequest cep)) as [e | resp]; [reflexivity |].
  cbn [locationOutcome].
  destruct (negb (StatusCode resp =? StatusOK)); [reflexivity |].
  destruct (RespBody resp ≫= json_Decode_ViaCEPResponse) as [v |]; [| reflexivity].
  destruct (Erro v); reflexivity.
Qed.

Lemma getWeatherFromAPI_mock (world : World) (location : string) (st : HandlerState) :
  Getenv world "WEATHER_API_KEY" = "" \/
  Getenv world "WEATHER_API_KEY" = ServiceB.placeholderKey ->
  ServiceB.getWeatherFromAPI world location st =
    (Ok {| City := location;
           TempC := ServiceB.mockTempC;
           TempF := celsiusToFahrenheit ServiceB.mockTempC;
           TempK := celsiusToKelvin ServiceB.mockTempC |}, st).
Proof.
  intros [H | H]; unfold ServiceB.getWeatherFromAPI; rewrite H; reflexivity.
Qed.

Lemma getWeatherFromAPI_live (world : World) (location : string) (st : HandlerState) :
  credentialConfigured world ->
  ServiceB.getWeatherFromAPI world location st =
    match url_Parse_error (weatherAPIURL (Getenv world "WEATHER_API_KEY") location) with
    | Some e => (Err ("failed to create request: " +:+ e), st)
    | None =>
        (weatherOutcome
           (transport world (weatherAPIRequest (Getenv world "WEATHER_API_KEY") location)),
         sent st (weatherAPIRequest (Getenv world "WEATHER_API_KEY") location))
    end.
Proof.
  intros [H1 H2]. unfold ServiceB.getWeatherFromAPI.
  rewrite (eqb_false_of_neq _ _ H1), (eqb_false_of_neq _ _ H2). cbn [orb].
  set (key := Getenv world "WEATHER_API_KEY").
  unfold NewRequest. fold (weatherAPIURL key location).
  destruct (url_Parse_error (weatherAPIURL key location)) as [e |]; [reflexivity |].
  unfold bind, clientDo. fold (weatherAPIRequest key location).
  fold (sent st (weatherAPIRequest key location)).
  destruct (transport world (weatherAPIRequest key location)) as [e | resp]; [reflexivity |].
  cbn [weatherOutcome].
  destruct (negb (StatusCode resp =? StatusOK)); [reflexivity |].
  destruct (RespBody resp ≫= json_Decode_WeatherAPIResponse); reflexivity.
Qed.

(** The credential is either configured or replaced by the mock. *)
Lemma credential_cases (world : World) :
  credentialConfigured world \/
  (Getenv world "WEATHER_API_KEY" = "" \/
   Getenv world "WEATHER_API_KEY" = ServiceB.placeholderKey).
Proof.
  unfold credentialConfigured.
  destruct (String.eqb_spec (Getenv world "WEATHER_API_KEY") "") as [-> | H1]; [tauto |].
  destruct (String.eqb_spec (Getenv world "WEATHER_API_KEY") ServiceB.placeholderKey)
    as [-> | H2]; tauto.
Qed.

End Lookups.

Section ResolverErrors.
Context `{lib : Libraries}.

(** *** Service B: the handler *)

(** A well-formed request reaches the location lookup. *)
Lemma handleWeather_valid (world : World) (r : Request) (req : CEPRequest) :
  Method r = MethodPost ->
  json_Decode_CEPRequest (ReqBody r) = Some req ->
  ServiceB.isValidCEP (CEP req) = true ->
  ServiceB.handleWeather world r initialState =
    match url_Parse_error (viaCEPURL (CEP req)) with
    | Some e =>
        ServiceB.writeErrorResponse "internal server error" StatusInternalServerError
          initialState
    | None =>
        let st := sent initialState (viaCEPRequest (CEP req)) in
        match locationOutcome (transport world (viaCEPRequest (CEP req))) with
        | Err err =>
            (if String.eqb err "CEP not found" || String.eqb err "can not find zipcode" then
               ServiceB.writeErrorResponse "can not find zipcode" StatusNotFound
             else
               ServiceB.writeErrorResponse "internal server error"
                 StatusInternalServerError) st
        | Ok location =>
            let '(wr, st') := ServiceB.getWeatherFromAPI world location st in
            match wr with
            | Err _ =>
                ServiceB.writeErrorResponse "internal server error"
                  StatusInternalServerError
            | Ok weather =>
                onWriter (HeaderSet "Content-Type" "application/json") ;;
                onWriter (WriteHeader StatusOK) ;;
                Encode (JWeatherResponse weather)
            end st'
        end
    end.
Proof.
  intros Hm Hd Hv. unfold ServiceB.handleWeather.
  rewrite Hm, String.eqb_refl, Hd, Hv. cbn [negb].
  unfold bind at 1. rewrite getLocationFromCEP_eq.
  destruct (url_Parse_error (viaCEPURL (CEP req))) as [e |]; [reflexivity |].
  cbv zeta.
  destruct (locationOutcome (transport world (viaCEPRequest (CEP req)))) as [location | err];
    reflexivity.
Qed.

(** C5. A valid code for which ViaCEP answers with status 200 and its
    not-found flag set is answered with status 404 and the message
    [can not find zipcode]; the only outbound request is the one to ViaCEP,
    so no weather lookup is attempted. *)
Theorem not_found_flag_is_404 (world : World) (r : Request) (req : CEPRequest)
    (resp : Response) (v : ViaCEPResponse) :
  Method r = MethodPost ->
  json_Decode_CEPRequest (ReqBody r) = Some req ->
  ServiceB.isValidCEP (CEP req) = true ->
  url_Parse_error (viaCEPURL (CEP req)) = None ->
  transport world (viaCEPRequest (CEP req)) = DoResponse resp ->
  StatusCode resp = StatusOK ->
  RespBody resp ≫= json_Decode_ViaCEPResponse = Some v ->
  Erro v = true ->
  ServiceB.serve world r =
    (errorResponse "can not find zipcode" StatusNotFound, [viaCEPRequest (CEP req)]).
Proof.
  intros Hm Hd Hv Hu Ht Hs Hb He.
  unfold ServiceB.serve. rewrite (handleWeather_valid world r req Hm Hd Hv), Hu, Ht.
  cbn [locationOutcome]. rewrite Hs, Hb, He. reflexivity.
Qed.

(** An undecodable ViaCEP body is reported like the not-found flag. *)
Lemma undecodable_location_body_is_404 (world : World) (r : Request) (req : CEPRequest)
    (resp : Response) :
  Method r = MethodPost ->
  json_Decode_CEPRequest (ReqBody r) = Some req ->
  ServiceB.isValidCEP (CEP req) = true ->
  url_Parse_error (viaCEPURL (CEP req)) = None ->
  transport world (viaCEPRequest (CEP req)) = DoResponse resp ->
  StatusCode resp = StatusOK ->
  RespBody resp ≫= json_Decode_ViaCEPResponse = None ->
  ServiceB.serve world r =
    (errorResponse "can not find zipcode" StatusNotFound, [viaCEPRequest (CEP req)]).
Proof.
  intros Hm Hd Hv Hu Ht Hs Hb.
  unfold ServiceB.serve. rewrite (handleWeather_valid world r req Hm Hd Hv), Hu, Ht.
  cbn [locationOutcome]. rewrite Hs, Hb. reflexivity.
Qed.

(** C2 (amended). When the location lookup breaks before a body is decoded
    (the request cannot be built, the network fails, or ViaCEP answers with
    a status other than 200), a valid code is answered with status 500 and
    the message [internal server error]. *)
Theorem location_failure_is_500 (world : World) (r : Request) (req : CEPRequest) :
  Method r = MethodPost ->
  json_Decode_CEPRequest (ReqBody r) = Some req ->
  ServiceB.isValidCEP (CEP req) = true ->
  locationLookupBreaks world (CEP req) ->
  fst (ServiceB.serve world r) =
    errorResponse "internal server error" StatusInternalServerError.
Proof.
  intros Hm Hd Hv Hbreak.
  unfold ServiceB.serve. rewrite (handleWeather_valid world r req Hm Hd Hv).
  destruct Hbreak as [e Hu | e Hu Ht | resp Hu Ht Hs].
  - rewrite Hu. reflexivity.
  - rewrite Hu, Ht. reflexivity.
  - rewrite Hu, Ht. cbn [locationOutcome].
    apply Z.eqb_neq in Hs. rewrite Hs. reflexivity.
Qed.

(** C6. When the location is resolved and the weather lookup then fails
    (the request cannot be built, the network fails, WeatherAPI answers
    with a status other than 200, or its body does not decode), the answer
    is status 500 with the message [internal server error], whatever the
    cause. *)
Theorem weather_failure_is_500 (world : World) (r : Request) (req : CEPRequest)
    (location : string) :
  Method r = MethodPost ->
  json_Decode_CEPRequest (ReqBody r) = Some req ->
  ServiceB.isValidCEP (CEP req) = true ->
  fst (ServiceB.getLocationFromCEP world (CEP req) initialState) = Ok location ->
  credentialConfigured world ->
  weatherLookupBreaks world location ->
  fst (ServiceB.serve world r) =
    errorResponse "internal server error" StatusInternalServerError.
Proof.
  intros Hm Hd Hv Hloc Hkey Hbreak.
  unfold ServiceB.serve. rewrite (handleWeather_valid world r req Hm Hd Hv).
  rewrite getLocationFromCEP_eq in Hloc.
  destruct (url_Parse_error (viaCEPURL (CEP req))) as [e |]; [discriminate |].
  cbn [fst] in Hloc. rewrite Hloc. cbv zeta.
  rewrite (getWeatherFromAPI_live world location _ Hkey).
  destruct Hbreak as [e Hu | e Hu Ht | resp Hu Ht Hs | resp Hu Ht Hs Hb].
  - rewrite Hu. reflexivity.
  - rewrite Hu, Ht. reflexivity.
  - rewrite Hu, Ht. cbn [weatherOutcome].
    apply Z.eqb_neq in Hs. rewrite Hs. reflexivity.
  - rewrite Hu, Ht. cbn [weatherOutcome]. rewrite Hs, Hb. reflexivity.
Qed.

End ResolverErrors.

Section ResolverCases.
Context `{lib : Libraries}.

Lemma getWeatherFromAPI_writer (world : World) (location : string) (st : HandlerState) :
  writer (snd (ServiceB.getWeatherFromAPI world location st)) = writer st.
Proof.
  destruct (credential_cases world) as [Hkey | Hmock].
  - rewrite (getWeatherFromAPI_live world location st Hkey).
    destruct (url_Parse_error _); reflexivity.
  - rewrite (getWeatherFromAPI_mock world location st Hmock). reflexivity.
Qed.

(** Every weather result is consistent under the conversion formulas, in
    the mock branch and in the provider branch alike. *)
Lemma getWeatherFromAPI_consistent (world : World) (location : string)
    (st : HandlerState) (weather : WeatherResponse) :
  fst (ServiceB.getWeatherFromAPI world location st) = Ok weather ->
  TempF weather = celsiusToFahrenheit (TempC weather) /\
  TempK weather = celsiusToKelvin (TempC weather) /\
  CitySource world location weather.
Proof.
  destruct (credential_cases world) as [Hkey | Hmock].
  - rewrite (getWeatherFromAPI_live world location st Hkey).
    destruct (url_Parse_error _) as [e |]; [discriminate |].
    cbn [fst].
    destruct (transport world _) as [e | resp] eqn:Ht; [discriminate |].
    cbn [weatherOutcome].
    destruct (negb (StatusCode resp =? StatusOK)); [discriminate |].
    destruct (RespBody resp ≫= json_Decode_WeatherAPIResponse) as [api |] eqn:Hb;
      [| discriminate].
    intros [= <-]. cbn [TempF TempK TempC City].
    repeat split. now apply (city_provider world location _ resp api).
  - rewrite (getWeatherFromAPI_mock world location st Hmock). cbn [fst].
    intros [= <-]. cbn [TempF TempK TempC City].
    repeat split. now apply city_mock.
Qed.

Lemma serve_weather (weather : WeatherResponse) (st : HandlerState) :
  writer st = newResponseWriter ->
  sentResponse
    (writer (snd ((onWriter (HeaderSet "Content-Type" "application/json") ;;
                   onWriter (WriteHeader StatusOK) ;;
                   Encode (JWeatherResponse weather)) st)))
  = weatherResponse weather.
Proof.
  intros Hw. unfold weatherResponse, weatherBody, Encode, json_Marshal.
  destruct (marshalable (JWeatherResponse weather));
    unfold bind, onWriter, ret; cbn; rewrite Hw; reflexivity.
Qed.

Lemma serve_error_after (message : string) (code : Z) (st : HandlerState) :
  writer st = newResponseWriter ->
  sentResponse (writer (snd (ServiceB.writeErrorResponse message code st)))
  = errorResponse message code.
Proof.
  intros Hw. unfold ServiceB.writeErrorResponse, bind, onWriter. cbn. rewrite Hw.
  reflexivity.
Qed.

(** The case analysis of the handler. *)
Lemma resolver_answers (world : World) (r : Request) :
  Method r = MethodPost ->
  ResolverAnswer world r (fst (ServiceB.serve world r)).
Proof.
  intros Hm.
  destruct (json_Decode_CEPRequest (ReqBody r)) as [req |] eqn:Hd.
  2:{ unfold ServiceB.serve, ServiceB.handleWeather.
      rewrite Hm, String.eqb_refl, Hd. now apply answer_bad_body. }
  destruct (ServiceB.isValidCEP (CEP req)) eqn:Hv.
  2:{ unfold ServiceB.serve, ServiceB.handleWeather.
      rewrite Hm, String.eqb_refl, Hd, Hv. now apply (answer_invalid world r req). }
  unfold ServiceB.serve. rewrite (handleWeather_valid world r req Hm Hd Hv).
  cbn [fst].
  pose proof (getLocationFromCEP_eq world (CEP req) initialState) as Hloc.
  destruct (url_Parse_error (viaCEPURL (CEP req))) as [e |].
  { now apply (answer_failure world r req). }
  cbv zeta.
  destruct (locationOutcome (transport world (viaCEPRequest (CEP req))))
    as [location | err].
  - pose proof (getWeatherFromAPI_writer world location
                  (sent initialState (viaCEPRequest (CEP req)))) as Hw.
    destruct (ServiceB.getWeatherFromAPI world location
                (sent initialState (viaCEPRequest (CEP req)))) as [wr st'] eqn:Hwr.
    cbn [snd] in Hw. destruct wr as [weather | werr].
    + rewrite (serve_weather weather st' Hw).
      apply (answer_weather world r req location weather
               (sent initialState (viaCEPRequest (CEP req)))); try assumption.
      * now rewrite Hloc.
      * now rewrite Hwr.
    + rewrite (serve_error_after _ _ st' Hw). now apply (answer_failure world r req).
  - destruct (String.eqb err "CEP not found" || String.eqb err "can not find zipcode").
    + now apply (answer_not_found world r req).
    + now apply (answer_failure world r req).
Qed.

End ResolverCases.

Section EndToEnd.
Context `{lib : Libraries}.

(** C3. When the weather credential is absent from the environment or is
    the placeholder value, the weather lookup makes no outbound request (the
    handler state is unchanged) and succeeds with the resolved city, a
    Celsius reading of exactly 22.5 and the Fahrenheit and Kelvin values the
    conversion functions give for it, 72.5 and 295.65. *)
Theorem mock_weather_without_credential (world : World) (location : string)
    (st : HandlerState) :
  environ world !! "WEATHER_API_KEY" = None \/
  environ world !! "WEATHER_API_KEY" = Some ServiceB.placeholderKey ->
  ServiceB.getWeatherFromAPI world location st =
    (Ok {| City := location; TempC := 22.5%float;
           TempF := 72.5%float; TempK := 295.65%float |}, st) /\
  outbound (snd (ServiceB.getWeatherFromAPI world location st)) = outbound st /\
  celsiusToFahrenheit 22.5%float = 72.5%float /\
  celsiusToKelvin 22.5%float = 295.65%float.
Proof.
  intros Henv.
  assert (Hkey : Getenv world "WEATHER_API_KEY" = "" \/
                 Getenv world "WEATHER_API_KEY" = ServiceB.placeholderKey).
  { destruct Henv as [H | H]; [left; now apply Getenv_unset | right; now apply Getenv_set]. }
  rewrite (getWeatherFromAPI_mock world location st Hkey).
  destruct mock_reading as [HF HK]. rewrite HF, HK.
  repeat split; try reflexivity; assumption.
Qed.

(** C9 (amended). Every status-200 answer of service B answers a successful
    weather lookup for the resolved location, and in the result of that
    lookup [temp_F] is [temp_C * 1.8 + 32] and [temp_K] is [temp_C + 273.15],
    in the mock branch and in the provider branch (where the provider's own
    Fahrenheit reading is not used).  The body is the encoding of exactly that
    result, or is empty when the result does not encode (a temperature that
    is not finite).  The city is the resolved location (mock branch) or the
    name the provider reports (provider branch), whatever that string is. *)
Theorem success_temperatures_consistent (world : World) (r : Request) :
  StatusCode (fst (ServiceB.serve world r)) = StatusOK ->
  exists (req : CEPRequest) (location : string) (weather : WeatherResponse)
         (st : HandlerState),
    json_Decode_CEPRequest (ReqBody r) = Some req /\
    fst (ServiceB.getLocationFromCEP world (CEP req) initialState) = Ok location /\
    fst (ServiceB.getWeatherFromAPI world location st) = Ok weather /\
    TempF weather = (TempC weather * 1.8 + 32)%float /\
    TempK weather = (TempC weather + 273.15)%float /\
    CitySource world location weather /\
    ((marshalable (JWeatherResponse weather) = true /\
      fst (ServiceB.serve world r) =
        {| StatusCode := StatusOK;
           Header := jsonHeader;
           RespBody := Some [Marshal (JWeatherResponse weather); Raw newline] |}) \/
     (marshalable (JWeatherResponse weather) = false /\
      fst (ServiceB.serve world r) =
        {| StatusCode := StatusOK; Header := jsonHeader; RespBody := Some [] |})).
Proof.
  intros Hs.
  destruct (String.eqb_spec (Method r) MethodPost) as [Hm | Hn].
  2:{ apply String.eqb_neq in Hn.
      unfold ServiceB.serve, ServiceB.handleWeather in Hs. rewrite Hn in Hs.
      discriminate Hs. }
  destruct (resolver_answers world r Hm)
    as [Hd | req Hd Hv | req Hd Hv | req Hd Hv | req location weather st Hd Hv Hl Hw];
    try discriminate Hs.
  exists req, location, weather, st.
  destruct (getWeatherFromAPI_consistent world location st weather Hw) as (HF & HK & Hc).
  repeat (split; [assumption |]).
  unfold weatherResponse, weatherBody.
  destruct (marshalable (JWeatherResponse weather)); [left | right]; split; reflexivity.
Qed.

(** C10, service B side of the converse: the answer [invalid request body]
    is given only when decoding fails. *)
Lemma resolver_bad_request_iff (world : World) (r : Request) :
  Method r = MethodPost ->
  fst (ServiceB.serve world r) = errorResponse "invalid request body" StatusBadRequest <->
  json_Decode_CEPRequest (ReqBody r) = None.
Proof.
  intros Hm. split.
  - intros Hr.
    destruct (resolver_answers world r Hm)
      as [Hd | req Hd Hv | req Hd Hv | req Hd Hv | req location weather st Hd Hv Hl Hw];
      try assumption; discriminate Hr.
  - intros Hd. unfold ServiceB.serve, ServiceB.handleWeather.
    rewrite Hm, String.eqb_refl, Hd. reflexivity.
Qed.

(** *** Service A *)

(** A well-formed request is forwarded; the answer of the downstream call
    decides the rest. *)
Lemma handleCEP_valid (world : World) (r : Request) (req : CEPRequest) :
  Method r = MethodPost ->
  json_Decode_CEPRequest (ReqBody r) = Some req ->
  ServiceA.isValidCEP (CEP req) = true ->
  ServiceA.serve world r =
    match url_Parse_error (serviceBURL world) with
    | Some _ => (errorResponse "internal server error" StatusInternalServerError, [])
    | None =>
        (match transport world (serviceBRequest world (CEP req)) with
         | DoError _ => errorResponse "internal server error" StatusInternalServerError
         | DoResponse down =>
             {| StatusCode := StatusCode down;
                Header := jsonHeader;
                RespBody :=
                  Some (match RespBody down with
                        | Some body => body
                        | None =>
                            [Marshal (JErrorResponse {| Message := "internal server error" |});
                             Raw newline]
                        end) |}
         end,
         [serviceBRequest world (CEP req)])
    end.
Proof.
  intros Hm Hd Hv. unfold ServiceA.serve, ServiceA.handleCEP.
  rewrite Hm, String.eqb_refl, Hd, Hv. cbn [negb].
  unfold ServiceA.forwardToServiceB.
  cbn [json_Marshal marshalable]. unfold NewRequest. fold (serviceBURL world).
  destruct (url_Parse_error (serviceBURL world)) as [e |]; [reflexivity |].
  cbn [Method URL ReqHeader ReqBody]. fold (serviceBRequest world (CEP req)).
  unfold bind, clientDo. cbv beta.
  destruct (transport world (serviceBRequest world (CEP req))) as [e | down];
    [reflexivity |].
  destruct (RespBody down) as [body |]; reflexivity.
Qed.

(** A code that fails validation stops the handler before anything is
    forwarded. *)
Lemma handleCEP_invalid (world : World) (r : Request) (req : CEPRequest) :
  Method r = MethodPost ->
  json_Decode_CEPRequest (ReqBody r) = Some req ->
  ServiceA.isValidCEP (CEP req) = false ->
  ServiceA.handleCEP world r initialState =
    ServiceA.writeErrorResponse "invalid zipcode" StatusUnprocessableEntity initialState.
Proof.
  intros Hm Hd Hv. unfold ServiceA.handleCEP.
  rewrite Hm, String.eqb_refl, Hd, Hv. reflexivity.
Qed.

(** C7. A POST body that parses but whose code fails the 8-digit rule is
    answered by the Gateway with status 422 and the message
    [invalid zipcode], and no request goes out to service B. *)
Theorem gateway_rejects_invalid_code (world : World) (r : Request) (req : CEPRequest) :
  Method r = MethodPost ->
  json_Decode_CEPRequest (ReqBody r) = Some req ->
  ServiceA.isValidCEP (CEP req) = false ->
  ServiceA.serve world r =
    (errorResponse "invalid zipcode" StatusUnprocessableEntity, []).
Proof.
  intros Hm Hd Hv. unfold ServiceA.serve.
  rewrite (handleCEP_invalid world r req Hm Hd Hv). reflexivity.
Qed.

(** Whatever service B answers to a POST is JSON with a readable body. *)
Lemma resolver_answer_shape (world : World) (r : Request) :
  Method r = MethodPost ->
  exists body,
    Header (fst (ServiceB.serve world r)) = jsonHeader /\
    RespBody (fst (ServiceB.serve world r)) = Some body.
Proof.
  intros Hm.
  destruct (resolver_answers world r Hm); eexists; split; reflexivity.
Qed.

(** Every answer of service B has a readable body; it is JSON for a POST
    and the plain-text refusal otherwise. *)
Lemma resolver_answer_kinds (world : World) (r : Request) :
  exists body,
    RespBody (fst (ServiceB.serve world r)) = Some body /\
    (Method r = MethodPost -> Header (fst (ServiceB.serve world r)) = jsonHeader) /\
    (Method r <> MethodPost -> fst (ServiceB.serve world r) = methodNotAllowed).
Proof.
  destruct (String.eqb_spec (Method r) MethodPost) as [Hm | Hn].
  - destruct (resolver_answer_shape world r Hm) as (body & Hh & Hb).
    exists body. split; [assumption | split; [now intros _ | contradiction]].
  - pose proof Hn as Hneq. apply String.eqb_neq in Hn.
    unfold ServiceB.serve, ServiceB.handleWeather. rewrite Hn.
    eexists. split; [reflexivity | split; [contradiction | reflexivity]].
Qed.

(** C8 (amended). Of every response of service B that the downstream call
    obtains, to whatever request service B answered, the Gateway relays the
    status code and the body bytes unchanged.  The content type is not
    copied: it is always [application/json].  That is the content type of
    every answer of service B to a POST, and the relayed response is then
    equal to it; the refusal of another method is [text/plain]. *)
Theorem gateway_relay_of_resolver_response (gateway resolver : World)
    (r : Request) (req : CEPRequest) (answered : Request) :
  Method r = MethodPost ->
  json_Decode_CEPRequest (ReqBody r) = Some req ->
  ServiceA.isValidCEP (CEP req) = true ->
  url_Parse_error (serviceBURL gateway) = None ->
  transport gateway (serviceBRequest gateway (CEP req)) =
    DoResponse (fst (ServiceB.serve resolver answered)) ->
  let down := fst (ServiceB.serve resolver answered) in
  let up := fst (ServiceA.serve gateway r) in
  StatusCode up = StatusCode down /\
  RespBody up = RespBody down /\
  Header up !! "Content-Type" = Some "application/json" /\
  (Method answered = MethodPost -> up = down) /\
  (Method answered <> MethodPost ->
   Header down !! "Content-Type" = Some "text/plain; charset=utf-8").
Proof.
  intros Hm Hd Hv Hu Ht down up. subst up.
  rewrite (handleCEP_valid gateway r req Hm Hd Hv), Hu, Ht. fold down. cbn [fst].
  destruct (resolver_answer_kinds resolver answered) as (body & Hb & Hpost & Hother).
  fold down in Hb, Hpost, Hother. rewrite Hb. cbn [StatusCode RespBody Header].
  split; [reflexivity |]. split; [reflexivity |].
  split; [apply lookup_insert_eq |]. split.
  - intros Hp. specialize (Hpost Hp).
    destruct down as [code h b]. cbn in Hpost, Hb |- *. now subst h b.
  - intros Hn. rewrite (Hother Hn). vm_compute. reflexivity.
Qed.

(** C10. A request whose body decodes but carries no code (the [cep] field
    is left at the empty string, as for [{}] or a missing or empty field) is
    answered by both services with status 422 and the message
    [invalid zipcode], without any outbound request; the answer
    [invalid request body] with status 400 is produced only when decoding
    itself fails. *)
Theorem missing_code_is_invalid_zipcode (gateway resolver : World)
    (r : Request) (req : CEPRequest) :
  Method r = MethodPost ->
  json_Decode_CEPRequest (ReqBody r) = Some req ->
  CEP req = "" ->
  ServiceA.serve gateway r =
    (errorResponse "invalid zipcode" StatusUnprocessableEntity, []) /\
  ServiceB.serve resolver r =
    (errorResponse "invalid zipcode" StatusUnprocessableEntity, []) /\
  (forall r' : Request,
      Method r' = MethodPost ->
      ServiceA.serve gateway r' =
        (errorResponse "invalid request body" StatusBadRequest, []) <->
      json_Decode_CEPRequest (ReqBody r') = None) /\
  (forall r' : Request,
      Method r' = MethodPost ->
      fst (ServiceB.serve resolver r') =
        errorResponse "invalid request body" StatusBadRequest <->
      json_Decode_CEPRequest (ReqBody r') = None).
Proof.
  intros Hm Hd He.
  assert (Hv : regexp.MatchString regexp.cepPattern (CEP req) = false)
    by (rewrite He; reflexivity).
  split; [| split; [| split]].
  - unfold ServiceA.serve. rewrite (handleCEP_invalid gateway r req Hm Hd Hv).
    reflexivity.
  - unfold ServiceB.serve, ServiceB.handleWeather.
    rewrite Hm, String.eqb_refl, Hd. unfold ServiceB.isValidCEP. rewrite Hv. reflexivity.
  - intros r' Hm'. split.
    + intros Hr.
      destruct (json_Decode_CEPRequest (ReqBody r')) as [req' |] eqn:Hd'; [| reflexivity].
      destruct (ServiceA.isValidCEP (CEP req')) eqn:Hv'.
      * rewrite (handleCEP_valid gateway r' req' Hm' Hd' Hv') in Hr.
        destruct (url_Parse_error (serviceBURL gateway)); discriminate Hr.
      * unfold ServiceA.serve in Hr.
        rewrite (handleCEP_invalid gateway r' req' Hm' Hd' Hv') in Hr.
        discriminate Hr.
    + intros Hd'. unfold ServiceA.serve, ServiceA.handleCEP.
      rewrite Hm', String.eqb_refl, Hd'. reflexivity.
  - intros r' Hm'. now apply resolver_bad_request_iff.
Qed.

End EndToEnd.

(** * The services on the sample worlds *)

(** The example of the specification: code 01001000, ViaCEP answering
    São Paulo, no weather credential. *)
Example pipeline_sao_paulo :
  ServiceA.serve (lib := Sample.lib) (Sample.gateway Sample.resolverMock)
    (Sample.post (Sample.cepJSON "01001000")) =
  (weatherResponse {| City := "São Paulo"; TempC := 22.5%float;
                      TempF := 72.5%float; TempK := 295.65%float |},
   [serviceBRequest (Sample.gateway Sample.resolverMock) "01001000"]).
Proof. vm_compute. reflexivity. Qed.

Example network_error_is_500 :
  ServiceB.serve (lib := Sample.lib) Sample.resolverMock
    (Sample.post (Sample.cepJSON "33333333")) =
  (errorResponse "internal server error" StatusInternalServerError,
   [viaCEPRequest "33333333"]).
Proof. vm_compute. reflexivity. Qed.

Example placeholder_credential_is_mock :
  fst (ServiceB.serve (lib := Sample.lib) Sample.resolverPlaceholder
         (Sample.post (Sample.cepJSON "01001000"))) =
  weatherResponse {| City := "São Paulo"; TempC := 22.5%float;
                     TempF := 72.5%float; TempK := 295.65%float |}.
Proof. vm_compute. reflexivity. Qed.

(** With a credential the reading of the provider is converted; its own
    Fahrenheit value is not used. *)
Example provider_reading_is_converted :
  ServiceB.serve (lib := Sample.lib) Sample.resolverLive
    (Sample.post (Sample.cepJSON "01001000")) =
  (weatherResponse {| City := "Sao Paulo"; TempC := 25%float;
                      TempF := 77%float; TempK := 298.15%float |},
   [viaCEPRequest "01001000"; weatherAPIRequest "k3y" "São Paulo"]).
Proof. vm_compute. reflexivity. Qed.

(** C2, as stated, fails: ViaCEP answers code 00000000 with status 200 and
    a body that is not JSON; the lookup reports it as [can not find zipcode]
    and the answer is 404, not 500. *)
Lemma malformed_location_body_is_404 :
  let world := Sample.resolverMock in
  let r := Sample.post (Sample.cepJSON "00000000") in
  transport world (viaCEPRequest "00000000") = Sample.ok "<html>" /\
  json_Decode_ViaCEPResponse (Libraries := Sample.lib) [Raw "<html>"] = None /\
  ServiceB.serve (lib := Sample.lib) world r =
    (errorResponse "can not find zipcode" StatusNotFound, [viaCEPRequest "00000000"]) /\
  fst (ServiceB.serve (lib := Sample.lib) world r) <>
    errorResponse "internal server error" StatusInternalServerError.
Proof.
  cbv zeta. repeat split; try (vm_compute; reflexivity).
  vm_compute. discriminate.
Qed.

Lemma location_failure_is_500_witness :
  fst (ServiceB.serve (lib := Sample.lib) Sample.resolverMock
         (Sample.post (Sample.cepJSON "22222222"))) =
    errorResponse "internal server error" StatusInternalServerError.
Proof.
  apply (location_failure_is_500 (lib := Sample.lib) Sample.resolverMock
           (Sample.post (Sample.cepJSON "22222222")) {| CEP := "22222222" |}).
  - reflexivity.
  - vm_compute. reflexivity.
  - vm_compute. reflexivity.
  - apply (location_bad_status (H := Sample.lib) _ _ Sample.unavailableResponse).
    + vm_compute. reflexivity.
    + vm_compute. reflexivity.
    + vm_compute. discriminate.
Defined.

Lemma mock_weather_without_credential_witness :
  ServiceB.getWeatherFromAPI (lib := Sample.lib) Sample.resolverMock "São Paulo"
    initialState =
    (Ok {| City := "São Paulo"; TempC := 22.5%float;
           TempF := 72.5%float; TempK := 295.65%float |}, initialState) /\
  outbound (snd (ServiceB.getWeatherFromAPI (lib := Sample.lib) Sample.resolverMock
                   "São Paulo" initialState)) = outbound initialState /\
  celsiusToFahrenheit 22.5%float = 72.5%float /\
  celsiusToKelvin 22.5%float = 295.65%float.
Proof.
  apply (mock_weather_without_credential (lib := Sample.lib) Sample.resolverMock
           "São Paulo" initialState).
  left. vm_compute. reflexivity.
Defined.

Lemma not_found_flag_is_404_witness :
  ServiceB.serve (lib := Sample.lib) Sample.resolverMock
    (Sample.post (Sample.cepJSON "99999999")) =
    (errorResponse "can not find zipcode" StatusNotFound, [viaCEPRequest "99999999"]).
Proof.
  apply (not_found_flag_is_404 (lib := Sample.lib) Sample.resolverMock
           (Sample.post (Sample.cepJSON "99999999")) {| CEP := "99999999" |}
           (Sample.okResponse Sample.erroJSON) Sample.erroViaCEP);
    vm_compute; reflexivity.
Defined.

Lemma weather_failure_is_500_witness :
  fst (ServiceB.serve (lib := Sample.lib) Sample.resolverWeatherDown
         (Sample.post (Sample.cepJSON "01001000"))) =
    errorResponse "internal server error" StatusInternalServerError.
Proof.
  apply (weather_failure_is_500 (lib := Sample.lib) Sample.resolverWeatherDown
           (Sample.post (Sample.cepJSON "01001000")) {| CEP := "01001000" |}
           "São Paulo").
  - reflexivity.
  - vm_compute. reflexivity.
  - vm_compute. reflexivity.
  - vm_compute. reflexivity.
  - split; vm_compute; discriminate.
  - apply (weather_bad_status (H := Sample.lib) _ _ Sample.unavailableResponse).
    + vm_compute. reflexivity.
    + vm_compute. reflexivity.
    + vm_compute. discriminate.
Defined.

Lemma gateway_rejects_invalid_code_witness :
  ServiceA.serve (lib := Sample.lib) (Sample.gateway Sample.resolverMock)
    (Sample.post (Sample.cepJSON "123")) =
    (errorResponse "invalid zipcode" StatusUnprocessableEntity, []).
Proof.
  apply (gateway_rejects_invalid_code (lib := Sample.lib)
           (Sample.gateway Sample.resolverMock)
           (Sample.post (Sample.cepJSON "123")) {| CEP := "123" |});
    vm_compute; reflexivity.
Defined.

Lemma gateway_relay_of_resolver_response_witness :
  let gateway := Sample.gateway Sample.resolverLive in
  let down :=
    fst (ServiceB.serve (lib := Sample.lib) Sample.resolverLive
           (serviceBRequest gateway "01001000")) in
  let up :=
    fst (ServiceA.serve (lib := Sample.lib) gateway
           (Sample.post (Sample.cepJSON "01001000"))) in
  StatusCode up = StatusCode down /\
  RespBody up = RespBody down /\
  Header up !! "Content-Type" = Some "application/json" /\
  (Method (serviceBRequest gateway "01001000") = MethodPost -> up = down) /\
  (Method (serviceBRequest gateway "01001000") <> MethodPost ->
   Header down !! "Content-Type" = Some "text/plain; charset=utf-8").
Proof.
  apply (gateway_relay_of_resolver_response (lib := Sample.lib)
           (Sample.gateway Sample.resolverLive) Sample.resolverLive
           (Sample.post (Sample.cepJSON "01001000")) {| CEP := "01001000" |}
           (serviceBRequest (Sample.gateway Sample.resolverLive) "01001000"));
    vm_compute; reflexivity.
Defined.

(** C8, as stated, fails on the content type: with [SERVICE_B_URL] ending in
    a slash the downstream call obtains service B's refusal of a GET, status
    405 with content type [text/plain]; the Gateway relays its status and
    body but sends [application/json]. *)
Lemma refusal_is_relayed_as_json :
  let down :=
    fst (ServiceB.serve (lib := Sample.lib) Sample.resolverMock Redirected.followed) in
  let up :=
    fst (ServiceA.serve (lib := Sample.lib) Redirected.gateway
           (Sample.post (Sample.cepJSON "01001000"))) in
  transport Redirected.gateway (serviceBRequest Redirected.gateway "01001000")
    = DoResponse down /\
  StatusCode up = StatusMethodNotAllowed /\
  StatusCode up = StatusCode down /\
  RespBody up = RespBody down /\
  Header down !! "Content-Type" = Some "text/plain; charset=utf-8" /\
  Header up !! "Content-Type" = Some "application/json" /\
  Header up !! "Content-Type" <> Header down !! "Content-Type".
Proof.
  cbv zeta. repeat split; try (vm_compute; reflexivity).
  vm_compute. discriminate.
Qed.

(** C9, as stated, fails on the city: ViaCEP answers code 11111111 with
    the JSON object [{}], which decodes with an empty [localidade]; without
    a weather credential the answer is status 200 with an empty city. *)
Lemma success_with_empty_city :
  let world := Sample.resolverMock in
  let r := Sample.post (Sample.cepJSON "11111111") in
  transport world (viaCEPRequest "11111111") = Sample.ok "{}" /\
  json_Decode_ViaCEPResponse (Libraries := Sample.lib) [Raw "{}"] = Some Sample.zeroViaCEP /\
  ServiceB.serve (lib := Sample.lib) world r =
    (weatherResponse {| City := ""; TempC := 22.5%float;
                        TempF := 72.5%float; TempK := 295.65%float |},
     [viaCEPRequest "11111111"]) /\
  StatusCode (fst (ServiceB.serve (lib := Sample.lib) world r)) = StatusOK.
Proof.
  cbv zeta. repeat split; vm_compute; reflexivity.
Qed.

Lemma success_temperatures_consistent_witness :
  let world := Sample.resolverLive in
  let r := Sample.post (Sample.cepJSON "01001000") in
  exists (req : CEPRequest) (location : string) (weather : WeatherResponse)
         (st : HandlerState),
    json_Decode_CEPRequest (Libraries := Sample.lib) (ReqBody r) = Some req /\
    fst (ServiceB.getLocationFromCEP (lib := Sample.lib) world (CEP req) initialState)
      = Ok location /\
    fst (ServiceB.getWeatherFromAPI (lib := Sample.lib) world location st) = Ok weather /\
    TempF weather = (TempC weather * 1.8 + 32)%float /\
    TempK weather = (TempC weather + 273.15)%float /\
    CitySource (H := Sample.lib) world location weather /\
    ((marshalable (JWeatherResponse weather) = true /\
      fst (ServiceB.serve (lib := Sample.lib) world r) =
        {| StatusCode := StatusOK;
           Header := jsonHeader;
           RespBody := Some [Marshal (JWeatherResponse weather); Raw newline] |}) \/
     (marshalable (JWeatherResponse weather) = false /\
      fst (ServiceB.serve (lib := Sample.lib) world r) =
        {| StatusCode := StatusOK; Header := jsonHeader; RespBody := Some [] |})).
Proof.
  apply (success_temperatures_consistent (lib := Sample.lib) Sample.resolverLive
           (Sample.post (Sample.cepJSON "01001000"))).
  vm_compute. reflexivity.
Defined.

Lemma missing_code_is_invalid_zipcode_witness :
  let gateway := Sample.gateway Sample.resolverMock in
  let resolver := Sample.resolverMock in
  ServiceA.serve (lib := Sample.lib) gateway (Sample.post "{}") =
    (errorResponse "invalid zipcode" StatusUnprocessableEntity, []) /\
  ServiceB.serve (lib := Sample.lib) resolver (Sample.post "{}") =
    (errorResponse "invalid zipcode" StatusUnprocessableEntity, []) /\
  (forall r' : Request,
      Method r' = MethodPost ->
      ServiceA.serve (lib := Sample.lib) gateway r' =
        (errorResponse "invalid request body" StatusBadRequest, []) <->
      json_Decode_CEPRequest (Libraries := Sample.lib) (ReqBody r') = None) /\
  (forall r' : Request,
      Method r' = MethodPost ->
      fst (ServiceB.serve (lib := Sample.lib) resolver r') =
        errorResponse "invalid request body" StatusBadRequest <->
      json_Decode_CEPRequest (Libraries := Sample.lib) (ReqBody r') = None).
Proof.
  apply (missing_code_is_invalid_zipcode (lib := Sample.lib)
           (Sample.gateway Sample.resolverMock) Sample.resolverMock
           (Sample.post "{}") {| CEP := "" |});
    vm_compute; reflexivity.
Defined.

(** * Further properties of the two services *)

Section ClosedForm.
Context `{lib : Libraries}.

Lemma success_keeps_outbound (weather : WeatherResponse) (st : HandlerState) :
  outbound
    (snd ((onWriter (HeaderSet "Content-Type" "application/json") ;;
           onWriter (WriteHeader StatusOK) ;;
           Encode (JWeatherResponse weather)) st))
  = outbound st.
Proof.
  unfold Encode, json_Marshal.
  destruct (marshalable (JWeatherResponse weather)); reflexivity.
Qed.

(** The handler of service B computes [resolverAnswer]. *)
Lemma serve_resolverAnswer (world : World) (r : Request) (req : CEPRequest) :
  Method r = MethodPost ->
  json_Decode_CEPRequest (ReqBody r) = Some req ->
  ServiceB.isValidCEP (CEP req) = true ->
  ServiceB.serve world r = resolverAnswer world (CEP req).
Proof.
  intros Hm Hd Hv. unfold ServiceB.serve, resolverAnswer.
  rewrite (handleWeather_valid world r req Hm Hd Hv).
  destruct (url_Parse_error (viaCEPURL (CEP req))) as [e |]; [reflexivity |].
  cbv zeta.
  destruct (locationOutcome (transport world (viaCEPRequest (CEP req))))
    as [location | err].
  - destruct (credential_cases world) as [Hkey | Hmock].
    + rewrite (getWeatherFromAPI_live world location _ Hkey).
      destruct Hkey as [H1 H2].
      rewrite (eqb_false_of_neq _ _ H1), (eqb_false_of_neq _ _ H2). cbn [orb].
      destruct (url_Parse_error (weatherAPIURL (Getenv world "WEATHER_API_KEY") location))
        as [e |]; [reflexivity |].
      destruct (weatherOutcome _) as [weather | werr]; [| reflexivity].
      rewrite serve_weather, success_keeps_outbound by reflexivity. reflexivity.
    + rewrite (getWeatherFromAPI_mock world location _ Hmock).
      rewrite serve_weather, success_keeps_outbound by reflexivity.
      destruct Hmock as [H | H]; rewrite H; reflexivity.
  - unfold isNotFoundText.
    destruct (String.eqb err "CEP not found" || String.eqb err "can not find zipcode");
      reflexivity.
Qed.

End ClosedForm.

Section Further.
Context `{lib : Libraries}.

Lemma valid_is_eightDigits (cep : string) :
  regexp.MatchString regexp.cepPattern cep = true <-> eightDigits cep.
Proof.
  unfold eightDigits. rewrite MatchString_cepPattern. apply takeDigits_spec.
Qed.

(** Both handlers look at nothing but the method and the decoded body. *)
Lemma resolver_reads_method_and_code (world : World) (r1 r2 : Request) :
  Method r1 = Method r2 ->
  json_Decode_CEPRequest (ReqBody r1) = json_Decode_CEPRequest (ReqBody r2) ->
  ServiceB.serve world r1 = ServiceB.serve world r2.
Proof.
  intros Hm Hd. unfold ServiceB.serve, ServiceB.handleWeather. now rewrite Hm, Hd.
Qed.

(** X1. A request whose method is not POST is refused by both services with
    status 405 and the plain-text body [Method not allowed]; the body is not
    decoded and no request goes out. *)
Theorem other_methods_are_refused (gateway resolver : World) (r : Request) :
  Method r <> MethodPost ->
  ServiceA.serve gateway r = (methodNotAllowed, []) /\
  ServiceB.serve resolver r = (methodNotAllowed, []).
Proof.
  intros Hm. apply String.eqb_neq in Hm.
  unfold ServiceA.serve, ServiceA.handleCEP, ServiceB.serve, ServiceB.handleWeather.
  rewrite Hm. split; reflexivity.
Qed.

(** X2. When the call to service B fails in transport, the Gateway answers
    with status 500 and the fixed message [internal server error]; the text
    of the transport error does not reach the client. *)
Theorem downstream_failure_is_500 (world : World) (r : Request) (req : CEPRequest)
    (e : string) :
  Method r = MethodPost ->
  json_Decode_CEPRequest (ReqBody r) = Some req ->
  ServiceA.isValidCEP (CEP req) = true ->
  url_Parse_error (serviceBURL world) = None ->
  transport world (serviceBRequest world (CEP req)) = DoError e ->
  ServiceA.serve world r =
    (errorResponse "internal server error" StatusInternalServerError,
     [serviceBRequest world (CEP req)]).
Proof.
  intros Hm Hd Hv Hu Ht.
  rewrite (handleCEP_valid world r req Hm Hd Hv), Hu, Ht. reflexivity.
Qed.

(** X3. When service B has answered but its body cannot be read, the status
    line is already relayed: the client receives the status code of service
    B (not 500) together with the body of the [internal server error]
    message. *)
Theorem unreadable_downstream_body_keeps_status (world : World) (r : Request)
    (req : CEPRequest) (down : Response) :
  Method r = MethodPost ->
  json_Decode_CEPRequest (ReqBody r) = Some req ->
  ServiceA.isValidCEP (CEP req) = true ->
  url_Parse_error (serviceBURL world) = None ->
  transport world (serviceBRequest world (CEP req)) = DoResponse down ->
  RespBody down = None ->
  ServiceA.serve world r =
    ({| StatusCode := StatusCode down;
        Header := jsonHeader;
        RespBody := RespBody (errorResponse "internal server error"
                                StatusInternalServerError) |},
     [serviceBRequest world (CEP req)]).
Proof.
  intros Hm Hd Hv Hu Ht Hb.
  rewrite (handleCEP_valid world r req Hm Hd Hv), Hu, Ht, Hb. reflexivity.
Qed.

(** X4. The Gateway sends at most one request, and only for a code of
    exactly 8 ASCII digits: whatever the client sends, the outbound requests
    are none, or the single POST of that code to service B. *)
Theorem gateway_forwards_only_valid_codes (world : World) (r : Request) :
  snd (ServiceA.serve world r) = [] \/
  exists req : CEPRequest,
    json_Decode_CEPRequest (ReqBody r) = Some req /\
    eightDigits (CEP req) /\
    snd (ServiceA.serve world r) = [serviceBRequest world (CEP req)].
Proof.
  destruct (String.eqb_spec (Method r) MethodPost) as [Hm | Hn].
  2:{ left. apply String.eqb_neq in Hn.
      unfold ServiceA.serve, ServiceA.handleCEP. rewrite Hn. reflexivity. }
  destruct (json_Decode_CEPRequest (ReqBody r)) as [req |] eqn:Hd.
  2:{ left. unfold ServiceA.serve, ServiceA.handleCEP.
      rewrite Hm, String.eqb_refl, Hd. reflexivity. }
  destruct (ServiceA.isValidCEP (CEP req)) eqn:Hv.
  2:{ left. unfold ServiceA.serve.
      rewrite (handleCEP_invalid world r req Hm Hd Hv). reflexivity. }
  rewrite (handleCEP_valid world r req Hm Hd Hv).
  destruct (url_Parse_error (serviceBURL world)); [left; reflexivity |].
  right. exists req.
  split; [reflexivity | split; [now apply valid_is_eightDigits | reflexivity]].
Qed.

(** X5. With [SERVICE_B_URL] unset or empty, a valid code is posted to
    [http://localhost:8081/weather] with a JSON content type and the
    re-encoded code as its body. *)
Theorem gateway_default_downstream (world : World) (r : Request) (req : CEPRequest) :
  environ world !! "SERVICE_B_URL" = None \/
  environ world !! "SERVICE_B_URL" = Some "" ->
  Method r = MethodPost ->
  json_Decode_CEPRequest (ReqBody r) = Some req ->
  ServiceA.isValidCEP (CEP req) = true ->
  url_Parse_error "http://localhost:8081/weather" = None ->
  snd (ServiceA.serve world r) =
    [{| Method := "POST";
        URL := "http://localhost:8081/weather";
        ReqHeader := jsonHeader;
        ReqBody := [Marshal (JCEPRequest {| CEP := CEP req |})] |}].
Proof.
  intros Henv Hm Hd Hv Hu.
  assert (Hurl : serviceBURL world = "http://localhost:8081/weather").
  { unfold serviceBURL.
    destruct Henv as [H | H]; [rewrite (Getenv_unset _ _ H) | rewrite (Getenv_set _ _ _ H)];
      reflexivity. }
  rewrite (handleCEP_valid world r req Hm Hd Hv), Hurl, Hu.
  unfold serviceBRequest. rewrite Hurl. reflexivity.
Qed.

(** X6. Service B contacts ViaCEP only for a code of exactly 8 ASCII digits
    and WeatherAPI only after ViaCEP has resolved that code and with a
    configured credential: the outbound requests are none, the ViaCEP
    request alone, or the ViaCEP request followed by the WeatherAPI request
    for the resolved location. *)
Theorem resolver_outbound_requests (world : World) (r : Request) :
  snd (ServiceB.serve world r) = [] \/
  exists req : CEPRequest,
    json_Decode_CEPRequest (ReqBody r) = Some req /\
    eightDigits (CEP req) /\
    (snd (ServiceB.serve world r) = [viaCEPRequest (CEP req)] \/
     exists location : string,
       fst (ServiceB.getLocationFromCEP world (CEP req) initialState) = Ok location /\
       credentialConfigured world /\
       snd (ServiceB.serve world r) =
         [viaCEPRequest (CEP req);
          weatherAPIRequest (Getenv world "WEATHER_API_KEY") location]).
Proof.
  destruct (String.eqb_spec (Method r) MethodPost) as [Hm | Hn].
  2:{ left. apply String.eqb_neq in Hn.
      unfold ServiceB.serve, ServiceB.handleWeather. rewrite Hn. reflexivity. }
  destruct (json_Decode_CEPRequest (ReqBody r)) as [req |] eqn:Hd.
  2:{ left. unfold ServiceB.serve, ServiceB.handleWeather.
      rewrite Hm, String.eqb_refl, Hd. reflexivity. }
  destruct (ServiceB.isValidCEP (CEP req)) eqn:Hv.
  2:{ left. unfold ServiceB.serve, ServiceB.handleWeather.
      rewrite Hm, String.eqb_refl, Hd, Hv. reflexivity. }
  rewrite (serve_resolverAnswer world r req Hm Hd Hv). unfold resolverAnswer.
  destruct (url_Parse_error (viaCEPURL (CEP req))) as [e |] eqn:Hu; [left; reflexivity |].
  right. exists req. split; [reflexivity |]. split; [now apply valid_is_eightDigits |].
  destruct (locationOutcome (transport world (viaCEPRequest (CEP req))))
    as [location | err] eqn:Hl; [| left; reflexivity].
  cbv zeta.
  destruct (String.eqb_spec (Getenv world "WEATHER_API_KEY") "") as [He | Hne];
    [left; reflexivity |].
  destruct (String.eqb_spec (Getenv world "WEATHER_API_KEY") ServiceB.placeholderKey)
    as [Hp | Hnp]; [left; reflexivity |].
  cbn [orb].
  destruct (url_Parse_error (weatherAPIURL (Getenv world "WEATHER_API_KEY") location));
    [left; reflexivity |].
  right. exists location. rewrite getLocationFromCEP_eq, Hu, Hl.
  repeat split; assumption.
Qed.

End Further.

Section Outcomes.
Context `{lib : Libraries}.

(** The three kinds of result of the location lookup, each with the answer
    of ViaCEP that produces it. *)
Lemma locationOutcome_cases (rt : RoundTrip) :
  (exists (resp : Response) (v : ViaCEPResponse),
      rt = DoResponse resp /\ StatusCode resp = StatusOK /\
      RespBody resp ≫= json_Decode_ViaCEPResponse = Some v /\ Erro v = false /\
      locationOutcome rt = Ok (Localidade v)) \/
  (exists resp : Response,
      rt = DoResponse resp /\ StatusCode resp = StatusOK /\
      (RespBody resp ≫= json_Decode_ViaCEPResponse = None \/
       exists v, RespBody resp ≫= json_Decode_ViaCEPResponse = Some v /\ Erro v = true) /\
      locationOutcome rt = Err "can not find zipcode") \/
  (exists err : string,
      locationOutcome rt = Err err /\ isNotFoundText err = false /\
      ((exists e, rt = DoError e) \/
       (exists resp, rt = DoResponse resp /\ StatusCode resp <> StatusOK))).
Proof.
  destruct rt as [e | resp]; cbn [locationOutcome].
  - right. right. eexists. split; [reflexivity |]. split; [reflexivity |].
    left. now exists e.
  - destruct (StatusCode resp =? StatusOK) eqn:Hs; cbn [negb].
    + apply Z.eqb_eq in Hs.
      destruct (RespBody resp ≫= json_Decode_ViaCEPResponse) as [v |] eqn:Hb.
      * destruct (Erro v) eqn:He.
        -- right. left. exists resp. repeat split; try assumption.
           right. now exists v.
        -- left. exists resp, v. repeat split; assumption.
      * right. left. exists resp. repeat split; try assumption. now left.
    + apply Z.eqb_neq in Hs.
      right. right. eexists. split; [reflexivity |]. split; [reflexivity |].
      right. now exists resp.
Qed.

(** After a resolved location the answer is a success or the 500 error. *)
Lemma resolved_answer_status (world : World) (cep location : string) :
  url_Parse_error (viaCEPURL cep) = None ->
  locationOutcome (transport world (viaCEPRequest cep)) = Ok location ->
  StatusCode (fst (resolverAnswer world cep)) = StatusOK \/
  StatusCode (fst (resolverAnswer world cep)) = StatusInternalServerError.
Proof.
  intros Hu Hl. unfold resolverAnswer. rewrite Hu, Hl. cbv zeta.
  destruct (String.eqb _ "" || String.eqb _ ServiceB.placeholderKey); [now left |].
  destruct (url_Parse_error (weatherAPIURL _ location)); [now right |].
  destruct (weatherOutcome _); [now left | now right].
Qed.

(** X7. Whatever the request and whatever the providers answer, service B
    only ever sends one of six responses: the 405 refusal, one of the four
    fixed error messages with its status (400, 422, 404, 500), or a 200
    weather result.  No detail of an upstream error reaches the client. *)
Theorem resolver_answer_is_canonical (world : World) (r : Request) :
  let resp := fst (ServiceB.serve world r) in
  resp = methodNotAllowed \/
  resp = errorResponse "invalid request body" StatusBadRequest \/
  resp = errorResponse "invalid zipcode" StatusUnprocessableEntity \/
  resp = errorResponse "can not find zipcode" StatusNotFound \/
  resp = errorResponse "internal server error" StatusInternalServerError \/
  exists weather : WeatherResponse, resp = weatherResponse weather.
Proof.
  cbv zeta.
  destruct (String.eqb_spec (Method r) MethodPost) as [Hm | Hn].
  - destruct (resolver_answers world r Hm)
      as [Hd | req Hd Hv | req Hd Hv | req Hd Hv | req location weather st Hd Hv Hl Hw];
      auto 10. do 5 right. now exists weather.
  - left. apply String.eqb_neq in Hn.
    unfold ServiceB.serve, ServiceB.handleWeather. rewrite Hn. reflexivity.
Qed.

(** X8. For a valid code, service B answers 404 exactly when ViaCEP answers
    with status 200 and either the body does not decode or its [erro] flag is
    set; a network error or another status never gives 404, whatever the
    error text. *)
Theorem resolver_404_iff (world : World) (r : Request) (req : CEPRequest) :
  Method r = MethodPost ->
  json_Decode_CEPRequest (ReqBody r) = Some req ->
  ServiceB.isValidCEP (CEP req) = true ->
  StatusCode (fst (ServiceB.serve world r)) = StatusNotFound <->
  url_Parse_error (viaCEPURL (CEP req)) = None /\
  exists resp : Response,
    transport world (viaCEPRequest (CEP req)) = DoResponse resp /\
    StatusCode resp = StatusOK /\
    (RespBody resp ≫= json_Decode_ViaCEPResponse = None \/
     exists v, RespBody resp ≫= json_Decode_ViaCEPResponse = Some v /\ Erro v = true).
Proof.
  intros Hm Hd Hv. rewrite (serve_resolverAnswer world r req Hm Hd Hv).
  destruct (url_Parse_error (viaCEPURL (CEP req))) as [e |] eqn:Hu.
  { unfold resolverAnswer. rewrite Hu. split; [discriminate | intros [H _]; discriminate]. }
  destruct (locationOutcome_cases (transport world (viaCEPRequest (CEP req))))
    as [(resp & v & Ht & Hs & Hb & He & Hl) | [(resp & Ht & Hs & Hb & Hl)
       | (err & Hl & Hn & Hc)]].
  - destruct (resolved_answer_status world (CEP req) _ Hu Hl) as [H | H];
      rewrite H; (split; [discriminate |]).
    all: intros (_ & resp' & Ht' & _ & [Hb' | (v' & Hb' & He')]);
      rewrite Ht in Ht'; injection Ht' as <-; congruence.
  - unfold resolverAnswer. rewrite Hu, Hl. cbn [isNotFoundText String.eqb Ascii.eqb
      Bool.eqb orb fst StatusCode errorResponse]. split; [| reflexivity].
    intros _. split; [reflexivity |]. now exists resp.
  - unfold resolverAnswer. rewrite Hu, Hl, Hn. cbn [fst StatusCode errorResponse].
    split; [discriminate |].
    intros (_ & resp' & Ht' & Hs' & _).
    destruct Hc as [(e & Ht) | (resp & Ht & Hs)]; rewrite Ht in Ht'; [discriminate |].
    injection Ht' as <-. contradiction.
Qed.

(** X9. The location lookup never returns the error [CEP not found]: the
    first alternative of the comparison in [handleWeather] cannot be met, and
    the 404 answer comes from the text [can not find zipcode] alone. *)
Theorem location_error_is_never_CEP_not_found (world : World) (cep : string)
    (st : HandlerState) :
  fst (ServiceB.getLocationFromCEP world cep st) <> Err "CEP not found".
Proof.
  rewrite getLocationFromCEP_eq.
  destruct (url_Parse_error (viaCEPURL cep)) as [e |]; [discriminate |].
  cbn [fst].
  destruct (locationOutcome_cases (transport world (viaCEPRequest cep)))
    as [(resp & v & _ & _ & _ & _ & Hl) | [(resp & _ & _ & _ & Hl)
       | (err & Hl & Hn & _)]]; rewrite Hl; try discriminate.
  intros [= ->]. discriminate Hn.
Qed.

End Outcomes.

Section EndToEndAnswers.
Context `{lib : Libraries}.

(** X10. Without a weather credential (unset, empty or the placeholder), a
    valid code that ViaCEP resolves is answered with status 200, the
    [localidade] of ViaCEP as the city and the mock reading 22.5 / 72.5 /
    295.65, and the request to ViaCEP is the only one made. *)
Theorem resolver_mock_answer (world : World) (r : Request) (req : CEPRequest)
    (resp : Response) (v : ViaCEPResponse) :
  Method r = MethodPost ->
  json_Decode_CEPRequest (ReqBody r) = Some req ->
  ServiceB.isValidCEP (CEP req) = true ->
  url_Parse_error (viaCEPURL (CEP req)) = None ->
  transport world (viaCEPRequest (CEP req)) = DoResponse resp ->
  StatusCode resp = StatusOK ->
  RespBody resp ≫= json_Decode_ViaCEPResponse = Some v ->
  Erro v = false ->
  Getenv world "WEATHER_API_KEY" = "" \/
  Getenv world "WEATHER_API_KEY" = ServiceB.placeholderKey ->
  ServiceB.serve world r =
    ({| StatusCode := StatusOK;
        Header := jsonHeader;
        RespBody :=
          Some [Marshal (JWeatherResponse
                           {| City := Localidade v; TempC := 22.5%float;
                              TempF := 72.5%float; TempK := 295.65%float |});
                Raw newline] |},
     [viaCEPRequest (CEP req)]).
Proof.
  intros Hm Hd Hv Hu Ht Hs Hb He Hkey.
  rewrite (serve_resolverAnswer world r req Hm Hd Hv). unfold resolverAnswer.
  rewrite Hu, Ht. cbn [locationOutcome]. rewrite Hs, Z.eqb_refl, Hb, He. cbn [negb].
  cbv zeta. destruct Hkey as [H | H]; rewrite H; vm_compute; reflexivity.
Qed.

(** The answer with a credential, once both providers have answered. *)
Lemma resolver_provider_closed (world : World) (r : Request) (req : CEPRequest)
    (resp wresp : Response) (v : ViaCEPResponse) (api : WeatherAPIResponse) :
  Method r = MethodPost ->
  json_Decode_CEPRequest (ReqBody r) = Some req ->
  ServiceB.isValidCEP (CEP req) = true ->
  url_Parse_error (viaCEPURL (CEP req)) = None ->
  transport world (viaCEPRequest (CEP req)) = DoResponse resp ->
  StatusCode resp = StatusOK ->
  RespBody resp ≫= json_Decode_ViaCEPResponse = Some v ->
  Erro v = false ->
  credentialConfigured world ->
  url_Parse_error (weatherAPIURL (Getenv world "WEATHER_API_KEY") (Localidade v)) = None ->
  transport world (weatherAPIRequest (Getenv world "WEATHER_API_KEY") (Localidade v))
    = DoResponse wresp ->
  StatusCode wresp = StatusOK ->
  RespBody wresp ≫= json_Decode_WeatherAPIResponse = Some api ->
  ServiceB.serve world r =
    (weatherResponse
       {| City := Name (Location api);
          TempC := Current_TempC (Current api);
          TempF := celsiusToFahrenheit (Current_TempC (Current api));
          TempK := celsiusToKelvin (Current_TempC (Current api)) |},
     [viaCEPRequest (CEP req);
      weatherAPIRequest (Getenv world "WEATHER_API_KEY") (Localidade v)]).
Proof.
  intros Hm Hd Hv Hu Ht Hs Hb He [H1 H2] Hwu Hwt Hws Hwb.
  rewrite (serve_resolverAnswer world r req Hm Hd Hv). unfold resolverAnswer.
  rewrite Hu, Ht. cbn [locationOutcome]. rewrite Hs, Z.eqb_refl, Hb, He. cbn [negb].
  cbv zeta. rewrite (eqb_false_of_neq _ _ H1), (eqb_false_of_neq _ _ H2). cbn [orb].
  rewrite Hwu, Hwt. cbn [weatherOutcome]. rewrite Hws, Z.eqb_refl, Hwb. reflexivity.
Qed.

(** X11. With a credential, a valid code that ViaCEP resolves and for which
    WeatherAPI answers is answered with status 200: the city is the name
    WeatherAPI reports (not the [localidade] that was asked for), the Celsius
    reading is the provider's, Fahrenheit and Kelvin are computed from it, and
    exactly the two provider requests were made, ViaCEP first. *)
Theorem resolver_provider_answer (world : World) (r : Request) (req : CEPRequest)
    (resp wresp : Response) (v : ViaCEPResponse) (api : WeatherAPIResponse) :
  Method r = MethodPost ->
  json_Decode_CEPRequest (ReqBody r) = Some req ->
  ServiceB.isValidCEP (CEP req) = true ->
  url_Parse_error (viaCEPURL (CEP req)) = None ->
  transport world (viaCEPRequest (CEP req)) = DoResponse resp ->
  StatusCode resp = StatusOK ->
  RespBody resp ≫= json_Decode_ViaCEPResponse = Some v ->
  Erro v = false ->
  credentialConfigured world ->
  url_Parse_error (weatherAPIURL (Getenv world "WEATHER_API_KEY") (Localidade v)) = None ->
  transport world (weatherAPIRequest (Getenv world "WEATHER_API_KEY") (Localidade v))
    = DoResponse wresp ->
  StatusCode wresp = StatusOK ->
  RespBody wresp ≫= json_Decode_WeatherAPIResponse = Some api ->
  marshalable
    (JWeatherResponse
       {| City := Name (Location api);
          TempC := Current_TempC (Current api);
          TempF := celsiusToFahrenheit (Current_TempC (Current api));
          TempK := celsiusToKelvin (Current_TempC (Current api)) |}) = true ->
  ServiceB.serve world r =
    ({| StatusCode := StatusOK;
        Header := jsonHeader;
        RespBody :=
          Some [Marshal (JWeatherResponse
                           {| City := Name (Location api);
                              TempC := Current_TempC (Current api);
                              TempF := (Current_TempC (Current api) * 1.8 + 32)%float;
                              TempK := (Current_TempC (Current api) + 273.15)%float |});
                Raw newline] |},
     [viaCEPRequest (CEP req);
      weatherAPIRequest (Getenv world "WEATHER_API_KEY") (Localidade v)]).
Proof.
  intros Hm Hd Hv Hu Ht Hs Hb He Hkey Hwu Hwt Hws Hwb Hfin.
  rewrite (resolver_provider_closed world r req resp wresp v api) by assumption.
  unfold weatherResponse, weatherBody. rewrite Hfin. reflexivity.
Qed.

(** X12. When the provider's reading makes the Fahrenheit value overflow to
    an infinity, the status 200 is already sent when encoding fails: the
    client receives status 200 with an empty body. *)
Theorem overflowing_reading_gives_empty_200 (world : World) (r : Request)
    (req : CEPRequest) (resp wresp : Response) (v : ViaCEPResponse)
    (api : WeatherAPIResponse) :
  Method r = MethodPost ->
  json_Decode_CEPRequest (ReqBody r) = Some req ->
  ServiceB.isValidCEP (CEP req) = true ->
  url_Parse_error (viaCEPURL (CEP req)) = None ->
  transport world (viaCEPRequest (CEP req)) = DoResponse resp ->
  StatusCode resp = StatusOK ->
  RespBody resp ≫= json_Decode_ViaCEPResponse = Some v ->
  Erro v = false ->
  credentialConfigured world ->
  url_Parse_error (weatherAPIURL (Getenv world "WEATHER_API_KEY") (Localidade v)) = None ->
  transport world (weatherAPIRequest (Getenv world "WEATHER_API_KEY") (Localidade v))
    = DoResponse wresp ->
  StatusCode wresp = StatusOK ->
  RespBody wresp ≫= json_Decode_WeatherAPIResponse = Some api ->
  is_infinity (celsiusToFahrenheit (Current_TempC (Current api))) = true ->
  fst (ServiceB.serve world r) =
    {| StatusCode := StatusOK; Header := jsonHeader; RespBody := Some [] |}.
Proof.
  intros Hm Hd Hv Hu Ht Hs Hb He Hkey Hwu Hwt Hws Hwb Hinf.
  rewrite (resolver_provider_closed world r req resp wresp v api) by assumption.
  cbn [fst]. unfold weatherResponse, weatherBody, marshalable, finite.
  cbn [TempC TempF TempK]. rewrite Hinf.
  rewrite andb_false_r, andb_false_r. reflexivity.
Qed.

(** X13. Service B answers a POST with 422 [invalid zipcode] exactly when
    the body decodes and its code is not a string of 8 ASCII digits. *)
Theorem resolver_422_iff (world : World) (r : Request) :
  Method r = MethodPost ->
  fst (ServiceB.serve world r) =
    errorResponse "invalid zipcode" StatusUnprocessableEntity <->
  exists req : CEPRequest,
    json_Decode_CEPRequest (ReqBody r) = Some req /\ ~ eightDigits (CEP req).
Proof.
  intros Hm. split.
  - intros Hr.
    destruct (resolver_answers world r Hm)
      as [Hd | req Hd Hv | req Hd Hv | req Hd Hv | req location weather st Hd Hv Hl Hw];
      try discriminate Hr.
    exists req. split; [assumption |].
    intros Hdig. apply valid_is_eightDigits in Hdig.
    unfold ServiceB.isValidCEP in Hv. congruence.
  - intros (req & Hd & Hn).
    unfold ServiceB.serve, ServiceB.handleWeather.
    rewrite Hm, String.eqb_refl, Hd.
    destruct (ServiceB.isValidCEP (CEP req)) eqn:Hv; [| reflexivity].
    exfalso. apply Hn. now apply valid_is_eightDigits.
Qed.

(** X14. The Gateway is transparent: when, for every code of 8 ASCII
    digits, its downstream call reaches a service B that decodes the
    forwarded body back to that code, every client request, valid or not,
    gets from the Gateway exactly the response service B would have given to
    that request itself. *)
Theorem gateway_is_transparent (gateway resolver : World) (r : Request) :
  url_Parse_error (serviceBURL gateway) = None ->
  (forall cep : string,
      eightDigits cep ->
      json_Decode_CEPRequest [Marshal (JCEPRequest {| CEP := cep |})]
        = Some {| CEP := cep |}) ->
  (forall cep : string,
      eightDigits cep ->
      transport gateway (serviceBRequest gateway cep) =
        DoResponse (fst (ServiceB.serve resolver (serviceBRequest gateway cep)))) ->
  fst (ServiceA.serve gateway r) = fst (ServiceB.serve resolver r).
Proof.
  intros Hu Hround Ht.
  destruct (String.eqb_spec (Method r) MethodPost) as [Hm | Hn].
  2:{ apply String.eqb_neq in Hn.
      unfold ServiceA.serve, ServiceA.handleCEP, ServiceB.serve, ServiceB.handleWeather.
      rewrite Hn. reflexivity. }
  destruct (json_Decode_CEPRequest (ReqBody r)) as [req |] eqn:Hd.
  2:{ unfold ServiceA.serve, ServiceA.handleCEP, ServiceB.serve, ServiceB.handleWeather.
      rewrite Hm, String.eqb_refl, Hd. reflexivity. }
  destruct (ServiceA.isValidCEP (CEP req)) eqn:Hv.
  2:{ unfold ServiceA.serve. rewrite (handleCEP_invalid gateway r req Hm Hd Hv).
      unfold ServiceB.serve, ServiceB.handleWeather.
      rewrite Hm, String.eqb_refl, Hd.
      unfold ServiceA.isValidCEP in Hv. unfold ServiceB.isValidCEP. rewrite Hv.
      reflexivity. }
  assert (Hdig : eightDigits (CEP req)) by now apply valid_is_eightDigits.
  rewrite (handleCEP_valid gateway r req Hm Hd Hv), Hu, (Ht _ Hdig). cbn [fst].
  assert (Hsame : ServiceB.serve resolver (serviceBRequest gateway (CEP req)) =
                  ServiceB.serve resolver r).
  { apply resolver_reads_method_and_code.
    - now rewrite Hm.
    - rewrite Hd. cbn [ReqBody serviceBRequest]. rewrite (Hround _ Hdig).
      now destruct req. }
  rewrite Hsame.
  destruct (resolver_answer_shape resolver r Hm) as (body & Hh & Hb).
  rewrite Hb. destruct (fst (ServiceB.serve resolver r)) as [code h b].
  cbn in Hh, Hb |- *. now subst h b.
Qed.

End EndToEndAnswers.

(** ** The escaped city name *)



Section Relay.
Context `{lib : Libraries}.

(** X16. Of a downstream response the Gateway relays the status code and
    the body only: the content type sent to the client is always
    [application/json] and no other downstream header is passed on, whatever
    the downstream server sent. *)
Theorem gateway_relays_status_and_body_only (world : World) (r : Request)
    (req : CEPRequest) (down : Response) (body : Body) :
  Method r = MethodPost ->
  json_Decode_CEPRequest (ReqBody r) = Some req ->
  ServiceA.isValidCEP (CEP req) = true ->
  url_Parse_error (serviceBURL world) = None ->
  transport world (serviceBRequest world (CEP req)) = DoResponse down ->
  RespBody down = Some body ->
  fst (ServiceA.serve world r) =
    {| StatusCode := StatusCode down; Header := jsonHeader; RespBody := Some body |}.
Proof.
  intros Hm Hd Hv Hu Ht Hb.
  rewrite (handleCEP_valid world r req Hm Hd Hv), Hu, Ht, Hb. reflexivity.
Qed.

End Relay.

(** * The further properties on the sample worlds *)

Lemma other_methods_are_refused_witness :
  ServiceA.serve (lib := Sample.lib) (Sample.gateway Sample.resolverMock) Scenario.get
    = (methodNotAllowed, []) /\
  ServiceB.serve (lib := Sample.lib) Sample.resolverMock Scenario.get
    = (methodNotAllowed, []).
Proof.
  apply (other_methods_are_refused (lib := Sample.lib)
           (Sample.gateway Sample.resolverMock) Sample.resolverMock Scenario.get).
  vm_compute. discriminate.
Defined.

Lemma downstream_failure_is_500_witness :
  ServiceA.serve (lib := Sample.lib) Scenario.gatewayDown
    (Sample.post (Sample.cepJSON "01001000")) =
    (errorResponse "internal server error" StatusInternalServerError,
     [serviceBRequest Scenario.gatewayDown "01001000"]).
Proof.
  apply (downstream_failure_is_500 (lib := Sample.lib) Scenario.gatewayDown
           (Sample.post (Sample.cepJSON "01001000")) {| CEP := "01001000" |}
           "dial tcp 127.0.0.1:8081: connect: connection refused");
    vm_compute; reflexivity.
Defined.

Lemma unreadable_downstream_body_keeps_status_witness :
  ServiceA.serve (lib := Sample.lib) Scenario.gatewayTruncated
    (Sample.post (Sample.cepJSON "01001000")) =
    ({| StatusCode := 200;
        Header := jsonHeader;
        RespBody := RespBody (errorResponse "internal server error"
                                StatusInternalServerError) |},
     [serviceBRequest Scenario.gatewayTruncated "01001000"]).
Proof.
  apply (unreadable_downstream_body_keeps_status (lib := Sample.lib)
           Scenario.gatewayTruncated (Sample.post (Sample.cepJSON "01001000"))
           {| CEP := "01001000" |} Scenario.truncated);
    vm_compute; reflexivity.
Defined.

Lemma gateway_default_downstream_witness :
  snd (ServiceA.serve (lib := Sample.lib) (Sample.gateway Sample.resolverMock)
         (Sample.post (Sample.cepJSON "01001000"))) =
    [{| Method := "POST";
        URL := "http://localhost:8081/weather";
        ReqHeader := jsonHeader;
        ReqBody := [Marshal (JCEPRequest {| CEP := "01001000" |})] |}].
Proof.
  apply (gateway_default_downstream (lib := Sample.lib)
           (Sample.gateway Sample.resolverMock)
           (Sample.post (Sample.cepJSON "01001000")) {| CEP := "01001000" |}).
  - left. vm_compute. reflexivity.
  - reflexivity.
  - vm_compute. reflexivity.
  - vm_compute. reflexivity.
  - vm_compute. reflexivity.
Defined.

Lemma resolver_404_iff_witness :
  StatusCode (fst (ServiceB.serve (lib := Sample.lib) Sample.resolverMock
                     (Sample.post (Sample.cepJSON "99999999")))) = StatusNotFound <->
  url_Parse_error (Libraries := Sample.lib) (viaCEPURL "99999999") = None /\
  exists resp : Response,
    transport Sample.resolverMock (viaCEPRequest "99999999") = DoResponse resp /\
    StatusCode resp = StatusOK /\
    (RespBody resp ≫= json_Decode_ViaCEPResponse (Libraries := Sample.lib) = None \/
     exists v,
       RespBody resp ≫= json_Decode_ViaCEPResponse (Libraries := Sample.lib) = Some v /\
       Erro v = true).
Proof.
  apply (resolver_404_iff (lib := Sample.lib) Sample.resolverMock
           (Sample.post (Sample.cepJSON "99999999")) {| CEP := "99999999" |});
    vm_compute; reflexivity.
Defined.

Lemma resolver_mock_answer_witness :
  ServiceB.serve (lib := Sample.lib) Sample.resolverMock
    (Sample.post (Sample.cepJSON "01001000")) =
    ({| StatusCode := StatusOK;
        Header := jsonHeader;
        RespBody :=
          Some [Marshal (JWeatherResponse
                           {| City := "São Paulo"; TempC := 22.5%float;
                              TempF := 72.5%float; TempK := 295.65%float |});
                Raw newline] |},
     [viaCEPRequest "01001000"]).
Proof.
  apply (resolver_mock_answer (lib := Sample.lib) Sample.resolverMock
           (Sample.post (Sample.cepJSON "01001000")) {| CEP := "01001000" |}
           (Sample.okResponse Sample.saoPauloJSON) Sample.saoPauloViaCEP);
    try (vm_compute; reflexivity).
  left. vm_compute. reflexivity.
Defined.

Lemma resolver_provider_answer_witness :
  ServiceB.serve (lib := Sample.lib) Sample.resolverLive
    (Sample.post (Sample.cepJSON "01001000")) =
    ({| StatusCode := StatusOK;
        Header := jsonHeader;
        RespBody :=
          Some [Marshal (JWeatherResponse
                           {| City := "Sao Paulo"; TempC := 25%float;
                              TempF := (25 * 1.8 + 32)%float;
                              TempK := (25 + 273.15)%float |});
                Raw newline] |},
     [viaCEPRequest "01001000"; weatherAPIRequest "k3y" "São Paulo"]).
Proof.
  apply (resolver_provider_answer (lib := Sample.lib) Sample.resolverLive
           (Sample.post (Sample.cepJSON "01001000")) {| CEP := "01001000" |}
           (Sample.okResponse Sample.saoPauloJSON)
           (Sample.okResponse Sample.weatherJSON)
           Sample.saoPauloViaCEP Sample.saoPauloWeather);
    try (vm_compute; reflexivity).
  split; vm_compute; discriminate.
Defined.

Lemma overflowing_reading_gives_empty_200_witness :
  fst (ServiceB.serve (lib := Overflow.lib) Overflow.resolver
         (Sample.post (Sample.cepJSON "01001000"))) =
    {| StatusCode := StatusOK; Header := jsonHeader; RespBody := Some [] |}.
Proof.
  apply (overflowing_reading_gives_empty_200 (lib := Overflow.lib) Overflow.resolver
           (Sample.post (Sample.cepJSON "01001000")) {| CEP := "01001000" |}
           (Sample.okResponse Sample.saoPauloJSON)
           (Sample.okResponse Overflow.hotJSON)
           Sample.saoPauloViaCEP Overflow.hotWeather);
    try (vm_compute; reflexivity).
  split; vm_compute; discriminate.
Defined.

Lemma resolver_422_iff_witness :
  fst (ServiceB.serve (lib := Sample.lib) Sample.resolverMock
         (Sample.post (Sample.cepJSON "123"))) =
    errorResponse "invalid zipcode" StatusUnprocessableEntity <->
  exists req : CEPRequest,
    json_Decode_CEPRequest (Libraries := Sample.lib)
      (ReqBody (Sample.post (Sample.cepJSON "123"))) = Some req /\
    ~ eightDigits (CEP req).
Proof.
  apply (resolver_422_iff (lib := Sample.lib) Sample.resolverMock
           (Sample.post (Sample.cepJSON "123"))).
  reflexivity.
Defined.

Lemma gateway_is_transparent_witness :
  fst (ServiceA.serve (lib := Sample.lib) (Sample.gateway Sample.resolverLive)
         (Sample.post (Sample.cepJSON "01001000"))) =
  fst (ServiceB.serve (lib := Sample.lib) Sample.resolverLive
         (Sample.post (Sample.cepJSON "01001000"))).
Proof.
  apply (gateway_is_transparent (lib := Sample.lib)
           (Sample.gateway Sample.resolverLive) Sample.resolverLive
           (Sample.post (Sample.cepJSON "01001000"))).
  - vm_compute. reflexivity.
  - intros cep _. reflexivity.
  - intros cep _. reflexivity.
Defined.

Lemma gateway_relays_status_and_body_only_witness :
  fst (ServiceA.serve (lib := Sample.lib) Scenario.gatewayProxy
         (Sample.post (Sample.cepJSON "01001000"))) =
    {| StatusCode := 502;
       Header := jsonHeader;
       RespBody := Some [Raw "<html>Bad Gateway</html>"] |}.
Proof.
  apply (gateway_relays_status_and_body_only (lib := Sample.lib) Scenario.gatewayProxy
           (Sample.post (Sample.cepJSON "01001000")) {| CEP := "01001000" |}
           Scenario.badGateway);
    vm_compute; reflexivity.
Defined.
